(** * Order management system (sistema_pedidos.py)

    A shallow embedding of the order service: the data classes [Product],
    [OrderItem] and [Order], the two in-memory repositories, the notification
    services and [OrderService], followed by the properties of order
    creation, stock control and identifier assignment.

    Modelling conventions.
    - A Python [int] is a [Z]; a Python [float] is an IEEE 754 binary64 value
      ([spec_float] at precision 53, [emax] 1024).
    - A Python [dict] keyed by integers is an insertion-ordered association
      list ([Dict]): assigning to a present key keeps its position, assigning
      to a new key appends, as [list(d.values())] observes.
    - A method that may raise returns an [Exc]; a method of the service runs
      in the state-and-exception monad [M], so that the mutations made before
      a [raise] stay in the resulting state, as in Python.
    - An [OrderItem] holds a reference to the [Product] object of the
      catalog, not a copy: the reference is the catalog key of the object.
    - Diagnostic [print] calls are left out as output, the console being
      taken to accept any line, but not what building the line can raise:
      the subtotal of an item is evaluated, and an integer formatted in a
      line or in a message raises [ValueError] when it has more than 4300
      decimal digits, the default limit of CPython from 3.11 on.  This holds
      for the integers a caller can choose or write: product and order
      identifiers passed to the service, quantities, and stocks, which
      [update_stock] sets.  The identifier of an order of the service is a
      value of the store's counter, which starts at 1 and moves by one for
      each order saved: the lines that [save] and the notification services
      print for it are taken to format.  At the level of a repository, a
      method is the change of state it makes; the outcome of its [print] is
      given beside it where the service depends on it.  What the
      notification services print is kept as a structured record in the
      service's [outbox].
    - [datetime.now()] is an input: [create_order] takes the clock reading. *)

From Stdlib Require Import ZArith List String Bool Lia SpecFloat.
Import ListNotations.
Local Open Scope string_scope.
Local Open Scope list_scope.
Local Open Scope Z_scope.

(** ** Exceptions *)

(** The three [ValueError]s of the service differ by their message; the
    values interpolated into each message are kept as the payload.  A fourth
    [ValueError] is the interpreter's own, raised when an integer to format
    has too many digits. *)
Inductive message : Type :=
| ProductNotFound (product_id : Z)
    (* " Producto con ID {product_id} no encontrado" *)
| InsufficientStock (name : string) (available requested : Z)
    (* " Stock insuficiente para {name}. Disponible: ..., Solicitado: ..." *)
| OrderNotFound (order_id : Z)
    (* " Orden con ID {order_id} no encontrada" *)
| ExceedsDigitLimit.
    (* "Exceeds the limit (4300 digits) for integer string conversion" *)

Inductive exn : Type :=
| ValueError (msg : message)
| OverflowError
    (* "int too large to convert to float" *)
| DanglingReference (ref : Z).
    (* not a Python exception: a reference of the model that resolves to no
       object; no state built by the service contains one *)

Inductive Exc (A : Type) : Type :=
| Ok (a : A)
| Raise (e : exn).
Arguments Ok {A} a.
Arguments Raise {A} e.

Definition exc_bind {A B : Type} (r : Exc A) (k : A -> Exc B) : Exc B :=
  match r with
  | Ok a => k a
  | Raise e => Raise e
  end.

Declare Scope exc_scope.
Delimit Scope exc_scope with exc.
Notation "x <- r ;; k" := (exc_bind r (fun x => k))
  (at level 100, r at next level, right associativity) : exc_scope.

(** ** Python numbers *)

Module Py.

Definition float : Type := spec_float.

Definition prec : Z := 53.
Definition emax : Z := 1024.

Definition fadd : float -> float -> float := SFadd prec emax.
Definition fmul : float -> float -> float := SFmul prec emax.
Definition fdiv : float -> float -> float := SFdiv prec emax.

(** The correctly rounded binary64 value of an integer; an infinity when
    the integer is out of range. *)
Definition round_int (z : Z) : float := binary_normalize prec emax z 0 false.

Definition is_finite (f : float) : bool :=
  match f with
  | S754_zero _ | S754_finite _ _ _ => true
  | S754_infinity _ | S754_nan => false
  end.

(** [float(z)], the conversion applied to an [int] operand of a float
    operation: correctly rounded, [OverflowError] out of range. *)
Definition float_of_int (z : Z) : Exc float :=
  let f := round_int z in
  if is_finite f then Ok f else Raise OverflowError.

(** A decimal literal [n / d] with [n] and [d] exactly representable: the
    division is correctly rounded, as the reading of the literal is. *)
Definition literal (n d : Z) : float := fdiv (round_int n) (round_int d).

(** The value of an arithmetic expression: an [int] or a [float]. *)
Inductive number : Type :=
| Int (z : Z)
| Float (f : float).

(** [a + b] *)
Definition add (a b : number) : Exc number :=
  match a, b with
  | Int x, Int y => Ok (Int (x + y))
  | Int x, Float y => (fx <- float_of_int x ;; Ok (Float (fadd fx y)))%exc
  | Float x, Int y => (fy <- float_of_int y ;; Ok (Float (fadd x fy)))%exc
  | Float x, Float y => Ok (Float (fadd x y))
  end.

(** [a * b] *)
Definition mul (a b : number) : Exc number :=
  match a, b with
  | Int x, Int y => Ok (Int (x * y))
  | Int x, Float y => (fx <- float_of_int x ;; Ok (Float (fmul fx y)))%exc
  | Float x, Int y => (fy <- float_of_int y ;; Ok (Float (fmul x fy)))%exc
  | Float x, Float y => Ok (Float (fmul x y))
  end.

(** The builtin [sum(iterable)]: the items are added left to right to the
    start value, the integer 0.  The items come from a generator, so an
    item that raises ends the sum. *)
Fixpoint sum_from (acc : number) (xs : list (Exc number)) : Exc number :=
  match xs with
  | [] => Ok acc
  | x :: rest =>
      (item <- x ;;
       acc' <- add acc item ;;
       sum_from acc' rest)%exc
  end.

Definition sum (xs : list (Exc number)) : Exc number := sum_from (Int 0) xs.

(** CPython 3.12 and later do not add floats one by one: once the running
    total is a float, the floats that follow are added with Neumaier's
    compensation, [c] collecting the rounding errors, added at the end when
    it is finite and not zero.  The properties below are stated on [sum];
    [compensated_sum_agrees] compares the two on the demonstration order. *)
Definition fsub : float -> float -> float := SFsub prec emax.

Definition is_zero (f : float) : bool :=
  match f with
  | S754_zero _ => true
  | _ => false
  end.

Fixpoint sum_compensated (total c : float) (xs : list float) : float :=
  match xs with
  | [] => if negb (is_zero c) && is_finite c then fadd total c else total
  | x :: rest =>
      let t := fadd total x in
      let c :=
        if SFleb (SFabs x) (SFabs total)
        then fadd c (fadd (fsub total t) x)
        else fadd c (fadd (fsub x t) total) in
      sum_compensated t c rest
  end.

(** [sys.get_int_max_str_digits()], at its default. *)
Definition int_max_str_digits : Z := 4300.

(** The least magnitude with more digits than the limit, 10^4300, held
    as a numeral. *)
Definition int_str_bound : Z := Eval vm_compute in 10 ^ int_max_str_digits.

(** The integer has at most [int_max_str_digits] decimal digits, the sign
    not counted. *)
Definition formattable (z : Z) : bool := Z.abs z <? int_str_bound.

(** [str(z)], and [{z}] in an f-string, as far as raising goes. *)
Definition format_int (z : Z) : Exc unit :=
  if formattable z then Ok tt else Raise (ValueError ExceedsDigitLimit).

End Py.

Arguments Py.int_str_bound : simpl never.
Arguments Py.formattable z : simpl never.

(** ** Python dictionaries with integer keys *)

Module Dict.
Section Dict.
Variable V : Type.

Definition t : Type := list (Z * V).

Definition empty : t := [].

(** [d.get(k)] *)
Fixpoint get (k : Z) (d : t) : option V :=
  match d with
  | [] => None
  | (k', v) :: rest => if k =? k' then Some v else get k rest
  end.

(** [k in d] *)
Definition contains (k : Z) (d : t) : bool :=
  match get k d with
  | Some _ => true
  | None => false
  end.

(** [d[k] = v] *)
Fixpoint set (k : Z) (v : V) (d : t) : t :=
  match d with
  | [] => [(k, v)]
  | (k', v') :: rest =>
      if k =? k' then (k, v) :: rest else (k', v') :: set k v rest
  end.

(** [list(d.keys())] and [list(d.values())] *)
Definition keys (d : t) : list Z := map fst d.
Definition values (d : t) : list V := map snd d.

End Dict.
End Dict.

Arguments Dict.empty {V}.
Arguments Dict.get {V} k d.
Arguments Dict.contains {V} k d.
Arguments Dict.set {V} k v d.
Arguments Dict.keys {V} d.
Arguments Dict.values {V} d.

(** ** Models *)

(** A [datetime] is a point on the clock's time line. *)
Definition datetime : Type := Z.

Module Product.

Record t : Type := mk
  { id : Z;
    name : string;
    price : Py.float;
    stock : Z }.

(** [product.stock = new_stock] *)
Definition set_stock (product : t) (new_stock : Z) : t :=
  {| id := id product;
     name := name product;
     price := price product;
     stock := new_stock |}.

End Product.

(** The [Product] objects live in the catalog dictionary, which is never
    assigned to after its construction; an object is referred to by its key. *)
Definition products : Type := Dict.t Product.t.

Module OrderItem.

Record t : Type := mk
  { product : Z;          (* reference to a [Product] of the catalog *)
    quantity : Z }.

(** [self.product.price * self.quantity] *)
Definition subtotal (heap : products) (self : t) : Exc Py.number :=
  match Dict.get (product self) heap with
  | None => Raise (DanglingReference (product self))
  | Some p => Py.mul (Py.Float (Product.price p)) (Py.Int (quantity self))
  end.

End OrderItem.

Module Order.

Record t : Type := mk
  { id : option Z;
    customer_name : string;
    items : list OrderItem.t;
    status : string;
    created_at : option datetime }.

Definition __post_init__ (now : datetime) (items : option (list OrderItem.t))
    (created_at : option datetime)
  : list OrderItem.t * option datetime :=
  let created_at :=
    match created_at with
    | None => Some now
    | Some _ => created_at
    end in
  let items :=
    match items with
    | None => []
    | Some items => items
    end in
  (items, created_at).

(** [Order(id=..., customer_name=..., items=...)], with the defaults of
    [status] and [created_at]. *)
Definition new (now : datetime) (id : option Z) (customer_name : string)
    (items : option (list OrderItem.t)) : t :=
  let '(items, created_at) := __post_init__ now items None in
  {| id := id;
     customer_name := customer_name;
     items := items;
     status := "pending";
     created_at := created_at |}.

(** [order.id = new_id] *)
Definition set_id (order : t) (new_id : Z) : t :=
  {| id := Some new_id;
     customer_name := customer_name order;
     items := items order;
     status := status order;
     created_at := created_at order |}.

(** [sum(item.subtotal for item in self.items)] *)
Definition total (heap : products) (self : t) : Exc Py.number :=
  Py.sum (map (OrderItem.subtotal heap) (items self)).

End Order.

(** ** Repositories *)

Module InMemoryOrderRepository.

Record t : Type := mk
  { _orders : Dict.t Order.t;
    _next_id : Z }.

Definition __init__ : t :=
  {| _orders := Dict.empty; _next_id := 1 |}.

(** [save] assigns to [order.id] in place: the order as it is after the call
    is returned with the repository. *)
Definition save (self : t) (order : Order.t) : t * Order.t :=
  match Order.id order with
  | None =>
      let order := Order.set_id order (_next_id self) in
      ({| _orders := Dict.set (_next_id self) order (_orders self);
          _next_id := _next_id self + 1 |}, order)
  | Some order_id =>
      ({| _orders := Dict.set order_id order (_orders self);
          _next_id := _next_id self |}, order)
  end.

Definition find_by_id (self : t) (order_id : Z) : option Order.t :=
  Dict.get order_id (_orders self).

Definition find_all (self : t) : list Order.t :=
  Dict.values (_orders self).

End InMemoryOrderRepository.

Module InMemoryProductRepository.

Record t : Type := mk
  { _products : products }.

(** The seeded catalog. *)
Definition __init__ : t :=
  {| _products :=
       [ (1, Product.mk 1 "Laptop Gaming" (Py.literal 120000 100) 5);
         (2, Product.mk 2 "Mouse Inalámbrico" (Py.literal 4599 100) 20);
         (3, Product.mk 3 "Teclado Mecánico" (Py.literal 8999 100) 15);
         (4, Product.mk 4 "Monitor 24'" (Py.literal 29999 100) 8) ] |}.

Definition find_by_id (self : t) (product_id : Z) : option Product.t :=
  Dict.get product_id (_products self).

Definition find_all (self : t) : list Product.t :=
  Dict.values (_products self).

Definition update_stock (self : t) (product_id new_stock : Z) : t :=
  match Dict.get product_id (_products self) with
  | Some product =>
      {| _products :=
           Dict.set product_id (Product.set_stock product new_stock)
             (_products self) |}
  | None => self
  end.

(** The line that [update_stock] prints once it has written, for a product
    that [self], the repository before the call, holds: it formats the
    identifier, the old stock and the new one. *)
Definition update_stock_print (self : t) (product_id new_stock : Z)
  : Exc unit :=
  match Dict.get product_id (_products self) with
  | Some product =>
      (_ <- Py.format_int product_id ;;
       _ <- Py.format_int (Product.stock product) ;;
       Py.format_int new_stock)%exc
  | None => Ok tt
  end.

End InMemoryProductRepository.

(** ** Notification services *)

(** What a confirmation prints, field by field. *)
Inductive notification : Type :=
| Email (to : string) (order_id : option Z) (total : Py.number)
    (status : string)
| SMS (to : string) (order_id : option Z) (total : Py.number).

Module INotificationService.

Inductive t : Type :=
| EmailNotificationService
| SMSNotificationService.

(** Both services format [order.total] and return [True]. *)
Definition send_order_confirmation (self : t) (heap : products)
    (order : Order.t) : Exc (notification * bool) :=
  match self with
  | EmailNotificationService =>
      (total <- Order.total heap order ;;
       Ok (Email (Order.customer_name order) (Order.id order) total
             (Order.status order), true))%exc
  | SMSNotificationService =>
      (total <- Order.total heap order ;;
       Ok (SMS (Order.customer_name order) (Order.id order) total, true))%exc
  end.

End INotificationService.

(** ** Order service *)

Module OrderService.

Record t : Type := mk
  { order_repository : InMemoryOrderRepository.t;
    product_repository : InMemoryProductRepository.t;
    notification_service : INotificationService.t;
    outbox : list notification   (* confirmations printed so far *) }.

(** A method of the service: a result or an exception, and the state the
    call leaves behind in either case. *)
Definition M (A : Type) : Type := t -> Exc A * t.

Definition ret {A : Type} (a : A) : M A := fun s => (Ok a, s).

Definition raise {A : Type} (e : exn) : M A := fun s => (Raise e, s).

Definition bind {A B : Type} (m : M A) (k : A -> M B) : M B :=
  fun s =>
    match m s with
    | (Ok a, s') => k a s'
    | (Raise e, s') => (Raise e, s')
    end.

Declare Scope service_scope.
Delimit Scope service_scope with service.
Notation "x <- m ;; k" := (bind m (fun x => k))
  (at level 100, m at next level, right associativity) : service_scope.
Notation "m ;;; k" := (bind m (fun _ => k))
  (at level 100, right associativity) : service_scope.
Local Open Scope service_scope.

(** The calls on the injected dependencies. *)

Definition products_find_by_id (product_id : Z) : M (option Product.t) :=
  fun s =>
    (Ok (InMemoryProductRepository.find_by_id (product_repository s)
           product_id), s).

Definition products_update_stock (product_id new_stock : Z) : M unit :=
  fun s =>
    (InMemoryProductRepository.update_stock_print (product_repository s)
       product_id new_stock,
     {| order_repository := order_repository s;
        product_repository :=
          InMemoryProductRepository.update_stock (product_repository s)
            product_id new_stock;
        notification_service := notification_service s;
        outbox := outbox s |}).

Definition products_find_all : M (list Product.t) :=
  fun s => (Ok (InMemoryProductRepository.find_all (product_repository s)), s).

Definition orders_save (order : Order.t) : M Order.t :=
  fun s =>
    let '(repository, order) :=
      InMemoryOrderRepository.save (order_repository s) order in
    (Ok order,
     {| order_repository := repository;
        product_repository := product_repository s;
        notification_service := notification_service s;
        outbox := outbox s |}).

Definition orders_find_by_id (order_id : Z) : M (option Order.t) :=
  fun s =>
    (Ok (InMemoryOrderRepository.find_by_id (order_repository s) order_id), s).

Definition orders_find_all : M (list Order.t) :=
  fun s => (Ok (InMemoryOrderRepository.find_all (order_repository s)), s).

Definition notify (order : Order.t) : M bool :=
  fun s =>
    match
      INotificationService.send_order_confirmation (notification_service s)
        (InMemoryProductRepository._products (product_repository s)) order
    with
    | Ok (printed, sent) =>
        (Ok sent,
         {| order_repository := order_repository s;
            product_repository := product_repository s;
            notification_service := notification_service s;
            outbox := outbox s ++ [printed] |})
    | Raise e => (Raise e, s)
    end.

(** An integer formatted in a message or in a printed line. *)
Definition format (z : Z) : M unit := fun s => (Py.format_int z, s).

(** [order_item.subtotal], read through the item's product reference. *)
Definition item_subtotal (order_item : OrderItem.t) : M Py.number :=
  fun s =>
    (OrderItem.subtotal
       (InMemoryProductRepository._products (product_repository s))
       order_item, s).

(** The loop of [create_order] over the remaining [items], [order_items]
    being the list built so far. *)
Fixpoint validate_items (items : list (Z * Z)) (order_items : list OrderItem.t)
  : M (list OrderItem.t) :=
  match items with
  | [] => ret order_items
  | (product_id, quantity) :: items =>
      product <- products_find_by_id product_id ;;
      match product with
      | None =>
          format product_id ;;;
          raise (ValueError (ProductNotFound product_id))
      | Some product =>
          if Product.stock product <? quantity then
            format (Product.stock product) ;;;
            format quantity ;;;
            raise (ValueError
                     (InsufficientStock (Product.name product)
                        (Product.stock product) quantity))
          else
            let order_item := OrderItem.mk product_id quantity in
            let order_items := order_items ++ [order_item] in
            (* the line printed for the item formats the quantity, then
               the subtotal *)
            format quantity ;;;
            item_subtotal order_item ;;;
            let new_stock := Product.stock product - quantity in
            products_update_stock product_id new_stock ;;;
            validate_items items order_items
      end
  end.

Definition create_order (now : datetime) (customer_name : string)
    (items : list (Z * Z)) : M Order.t :=
  order_items <- validate_items items [] ;;
  let order := Order.new now None customer_name (Some order_items) in
  order <- orders_save order ;;
  notify order ;;;
  ret order.

Definition get_order (order_id : Z) : M Order.t :=
  order <- orders_find_by_id order_id ;;
  match order with
  | None =>
      format order_id ;;;
      raise (ValueError (OrderNotFound order_id))
  | Some order => ret order
  end.

Definition list_orders : M (list Order.t) := orders_find_all.

Definition get_available_products : M (list Product.t) := products_find_all.

End OrderService.

(** ** Dependency container *)

Module DependencyContainer.

Definition get_notification_service (notification_type : string)
  : INotificationService.t :=
  if String.eqb notification_type "sms"
  then INotificationService.SMSNotificationService
  else INotificationService.EmailNotificationService.

Definition get_order_service (notification_type : string) : OrderService.t :=
  {| OrderService.order_repository := InMemoryOrderRepository.__init__;
     OrderService.product_repository := InMemoryProductRepository.__init__;
     OrderService.notification_service :=
       get_notification_service notification_type;
     OrderService.outbox := [] |}.

End DependencyContainer.

(** ** Vocabulary of the properties *)

(** The products, as the service sees them. *)
Definition catalog (s : OrderService.t) : products :=
  InMemoryProductRepository._products (OrderService.product_repository s).

(** The order item that [create_order] builds for a requested pair. *)
Definition item_of (pair : Z * Z) : OrderItem.t :=
  OrderItem.mk (fst pair) (snd pair).

(** The total quantity requested for [product_id] by the pairs [items]. *)
Fixpoint requested (product_id : Z) (items : list (Z * Z)) : Z :=
  match items with
  | [] => 0
  | (product_id', quantity) :: items =>
      (if product_id' =? product_id then quantity else 0)
      + requested product_id items
  end.


(** Every pair of [items] names a product of [heap]. *)
Definition all_known (heap : products) (items : list (Z * Z)) : bool :=
  forallb (fun pair => Dict.contains (fst pair) heap) items.

(** Every pair of [items] names a product of the catalog [heap] whose stock,
    less what the pairs before it ([seen], then the earlier pairs of [items])
    requested of that product, covers the pair's quantity. *)
Fixpoint in_stock (heap : products) (seen items : list (Z * Z)) : bool :=
  match items with
  | [] => true
  | (product_id, quantity) :: items =>
      match Dict.get product_id heap with
      | None => false
      | Some p =>
          (quantity <=? Product.stock p - requested product_id seen)
          && in_stock heap (seen ++ [(product_id, quantity)]) items
      end
  end.

(** The quantity is in the range of [float]: [float(quantity)] does not
    overflow. *)
Definition convertible (quantity : Z) : bool :=
  Py.is_finite (Py.round_int quantity).

Definition all_convertible (items : list (Z * Z)) : bool :=
  forallb (fun pair => convertible (snd pair)) items.

(** The integers that the loop of [create_order] formats for a pair that it
    takes have at most 4300 digits: the product identifier, the quantity,
    the stock found, which is the starting stock less what the pairs [seen]
    requested, and the stock written. *)
Definition printable (heap : products) (seen : list (Z * Z))
    (request : Z * Z) : bool :=
  Py.formattable (fst request)
  && Py.formattable (snd request)
  && match Dict.get (fst request) heap with
     | None => true
     | Some p =>
         let left_in_stock :=
           Product.stock p - requested (fst request) seen in
         Py.formattable left_in_stock
         && Py.formattable (left_in_stock - snd request)
     end.

Fixpoint all_printable (heap : products) (seen items : list (Z * Z)) : bool :=
  match items with
  | [] => true
  | request :: items =>
      printable heap seen request
      && all_printable heap (seen ++ [request]) items
  end.

(** Unit price times quantity for one pair, at the prices of [heap]. *)
Definition price_times_quantity (heap : products) (pair : Z * Z)
  : Exc Py.number :=
  match Dict.get (fst pair) heap with
  | None => Raise (ValueError (ProductNotFound (fst pair)))
  | Some p => Py.mul (Py.Float (Product.price p)) (Py.Int (snd pair))
  end.

(** The sum of unit price times quantity over the pairs. *)
Definition sum_of_price_times_quantity (heap : products)
    (items : list (Z * Z)) : Exc Py.number :=
  Py.sum (map (price_times_quantity heap) items).

(** No product of the catalog has a negative stock. *)
Definition stocks_nonneg (heap : products) : Prop :=
  Forall (fun p => 0 <= Product.stock p) (Dict.values heap).

(** A call on the service, and the state it leaves, whether it returns or
    raises. *)
Inductive call : Type :=
| CreateOrder (now : datetime) (customer_name : string) (items : list (Z * Z))
| GetOrder (order_id : Z)
| ListOrders
| GetAvailableProducts.

Definition perform (s : OrderService.t) (c : call) : OrderService.t :=
  match c with
  | CreateOrder now customer_name items =>
      snd (OrderService.create_order now customer_name items s)
  | GetOrder order_id => snd (OrderService.get_order order_id s)
  | ListOrders => snd (OrderService.list_orders s)
  | GetAvailableProducts => snd (OrderService.get_available_products s)
  end.

Definition perform_all (s : OrderService.t) (calls : list call)
  : OrderService.t :=
  fold_left perform calls s.

(** Successive [save] calls on one repository: the repository after the
    calls and the orders as each call left them. *)
Fixpoint save_each (repository : InMemoryOrderRepository.t)
    (orders : list Order.t) : InMemoryOrderRepository.t * list Order.t :=
  match orders with
  | [] => (repository, [])
  | order :: orders =>
      let '(repository, saved) :=
        InMemoryOrderRepository.save repository order in
      let '(repository, rest) := save_each repository orders in
      (repository, saved :: rest)
  end.

(** The identifiers that the successive [save] calls assign: those of the
    orders that arrive without one, in call order. *)
Fixpoint assigned_ids (repository : InMemoryOrderRepository.t)
    (orders : list Order.t) : list (option Z) :=
  match orders with
  | [] => []
  | order :: orders =>
      let '(repository, saved) :=
        InMemoryOrderRepository.save repository order in
      match Order.id order with
      | None => Order.id saved :: assigned_ids repository orders
      | Some _ => assigned_ids repository orders
      end
  end.

(** The orders among [orders] that arrive without an identifier. *)
Definition arriving_without_id (orders : list Order.t) : list Order.t :=
  filter (fun order =>
            match Order.id order with
            | None => true
            | Some _ => false
            end) orders.

(** The list that a call returned, empty when it raised. *)
Definition fst_ok {A : Type} (r : Exc (list A)) : list A :=
  match r with
  | Ok xs => xs
  | Raise _ => []
  end.

(** The seeded service of the demonstration. *)
Definition seeded : OrderService.t :=
  DependencyContainer.get_order_service "email".

(** The catalog [heap] is [heap0] with the stock of every product less
    what the pairs [seen] requested of it. *)
Definition decremented (heap0 : products) (seen : list (Z * Z))
    (heap : products) : Prop :=
  forall product_id,
    Dict.get product_id heap
    = option_map
        (fun p =>
           Product.set_stock p (Product.stock p - requested product_id seen))
        (Dict.get product_id heap0).

(** Two states of the service that differ at most in the catalog. *)
Definition same_but_catalog (s s' : OrderService.t) : Prop :=
  OrderService.order_repository s' = OrderService.order_repository s
  /\ OrderService.notification_service s' = OrderService.notification_service s
  /\ OrderService.outbox s' = OrderService.outbox s.

(** ** Vocabulary of the further properties *)

(** What a turn of the loop of [create_order] does with a pair, given the
    starting catalog [heap] and the pairs [seen] that went through before
    it: the pair goes through, or an exception is raised before the stock
    is written, or after. *)
Inductive turn : Type :=
| Passes
| RaisesBefore (e : exn)
| RaisesAfter (e : exn).

Definition turn_of (heap : products) (seen : list (Z * Z)) (request : Z * Z)
  : turn :=
  let product_id := fst request in
  let quantity := snd request in
  match Dict.get product_id heap with
  | None =>
      RaisesBefore
        (if Py.formattable product_id
         then ValueError (ProductNotFound product_id)
         else ValueError ExceedsDigitLimit)
  | Some p =>
      let left_in_stock := Product.stock p - requested product_id seen in
      if left_in_stock <? quantity then
        RaisesBefore
          (if Py.formattable left_in_stock && Py.formattable quantity
           then ValueError
                  (InsufficientStock (Product.name p) left_in_stock quantity)
           else ValueError ExceedsDigitLimit)
      else if negb (Py.formattable quantity) then
        RaisesBefore (ValueError ExceedsDigitLimit)
      else if negb (convertible quantity) then RaisesBefore OverflowError
      else if Py.formattable product_id
              && Py.formattable left_in_stock
              && Py.formattable (left_in_stock - quantity)
      then Passes
      else RaisesAfter (ValueError ExceedsDigitLimit)
  end.

(** The pairs of [items] whose stock is written, up to the first one that
    meets an exception, and that exception. *)
Fixpoint processed (heap : products) (seen items : list (Z * Z))
  : list (Z * Z) * option exn :=
  match items with
  | [] => ([], None)
  | request :: items =>
      match turn_of heap seen request with
      | RaisesBefore e => ([], Some e)
      | RaisesAfter e => ([request], Some e)
      | Passes =>
          let '(pre, e) := processed heap (seen ++ [request]) items in
          (request :: pre, e)
      end
  end.

(** The service once the stock of the pair is written, in a service whose
    catalog is the starting one less what the pairs [seen] requested. *)
Definition after_write (heap : products) (seen : list (Z * Z))
    (request : Z * Z) (s : OrderService.t) : OrderService.t :=
  match Dict.get (fst request) heap with
  | None => s
  | Some p =>
      snd (OrderService.products_update_stock (fst request)
             (Product.stock p - requested (fst request) seen - snd request) s)
  end.

(** An order store as the service builds it: the keys are 1, 2, ... in
    insertion order, the counter is the next integer, and every order is
    stored under its own identifier. *)
Definition sequential (r : InMemoryOrderRepository.t) : Prop :=
  let orders := InMemoryOrderRepository._orders r in
  Dict.keys orders = map Z.of_nat (seq 1 (List.length orders))
  /\ InMemoryOrderRepository._next_id r = Z.of_nat (List.length orders) + 1
  /\ Forall (fun entry => Order.id (snd entry) = Some (fst entry)) orders.

(** What identifies a product: every field but the stock. *)
Definition identity (p : Product.t) : Z * string * Py.float :=
  (Product.id p, Product.name p, Product.price p).

(** The catalog without the stocks: keys and identities, in order. *)
Definition skeleton (heap : products) : list (Z * (Z * string * Py.float)) :=
  map (fun entry => (fst entry, identity (snd entry))) heap.

(** The service with another notification service injected. *)
Definition with_notifier (n : INotificationService.t) (s : OrderService.t)
  : OrderService.t :=
  {| OrderService.order_repository := OrderService.order_repository s;
     OrderService.product_repository := OrderService.product_repository s;
     OrderService.notification_service := n;
     OrderService.outbox := OrderService.outbox s |}.

(** The recipient, order identifier and total that a confirmation shows. *)
Definition shown (n : notification) : string * option Z * Py.number :=
  match n with
  | Email to order_id total _ => (to, order_id, total)
  | SMS to order_id total => (to, order_id, total)
  end.

(** Every item of the order refers to a product of [heap]. *)
Definition resolves (heap : products) (order : Order.t) : bool :=
  forallb (fun item => Dict.contains (OrderItem.product item) heap)
    (Order.items order).

(** An order store whose keys are distinct and whose orders are stored
    under their own identifier. *)
Definition well_keyed (r : InMemoryOrderRepository.t) : Prop :=
  NoDup (Dict.keys (InMemoryOrderRepository._orders r))
  /\ Forall (fun entry => Order.id (snd entry) = Some (fst entry))
       (InMemoryOrderRepository._orders r).

(** The order identifiers that the confirmations of the outbox show. *)
Definition confirmed_ids (s : OrderService.t) : list (option Z) :=
  map (fun n => snd (fst (shown n))) (OrderService.outbox s).

(** The order identifiers that the order store lists. *)
Definition listed_ids (s : OrderService.t) : list (option Z) :=
  map Order.id
    (InMemoryOrderRepository.find_all (OrderService.order_repository s)).

(** * Properties *)

(** ** Dictionaries *)

Section DictFacts.
Variable V : Type.
Implicit Types (d : Dict.t V) (k : Z) (v : V).

Lemma get_set_eq d k v : Dict.get k (Dict.set k v d) = Some v.
Proof.
  induction d as [|[k' v'] d IH]; simpl.
  - now rewrite Z.eqb_refl.
  - destruct (k =? k') eqn:E; simpl; rewrite ?Z.eqb_refl, ?E; auto.
Qed.

Lemma get_set_ne d k k' v :
  k' <> k -> Dict.get k' (Dict.set k v d) = Dict.get k' d.
Proof.
  intros Hne. apply Z.eqb_neq in Hne.
  induction d as [|[k0 v0] d IH]; simpl.
  - now rewrite Hne.
  - destruct (k =? k0) eqn:E; simpl.
    + apply Z.eqb_eq in E. subst k0. now rewrite Hne.
    + now rewrite IH.
Qed.

Lemma set_set d k v w : Dict.set k v (Dict.set k w d) = Dict.set k v d.
Proof.
  induction d as [|[k' v'] d IH]; simpl.
  - now rewrite Z.eqb_refl.
  - destruct (k =? k') eqn:E; simpl; rewrite ?Z.eqb_refl, ?E; congruence.
Qed.

Lemma keys_set_present d k v w :
  Dict.get k d = Some w -> Dict.keys (Dict.set k v d) = Dict.keys d.
Proof.
  induction d as [|[k' v'] d IH]; simpl; [discriminate|].
  destruct (k =? k') eqn:E; simpl.
  - apply Z.eqb_eq in E. now subst.
  - intros H. f_equal. now apply IH.
Qed.

Lemma get_in_values d k v : Dict.get k d = Some v -> In v (Dict.values d).
Proof.
  induction d as [|[k' v'] d IH]; simpl; [discriminate|].
  destruct (k =? k'); intros H.
  - left. congruence.
  - right. auto.
Qed.

Lemma Forall_values_set (P : V -> Prop) d k v :
  Forall P (Dict.values d) -> P v -> Forall P (Dict.values (Dict.set k v d)).
Proof.
  unfold Dict.values. intros Hd Hv.
  induction d as [|[k' v'] d IH]; simpl.
  - constructor; auto.
  - inversion Hd; subst. destruct (k =? k'); simpl; constructor; auto.
Qed.

End DictFacts.

(** ** The catalog store *)

Lemma set_stock_set_stock p a b :
  Product.set_stock (Product.set_stock p a) b = Product.set_stock p b.
Proof. reflexivity. Qed.

Lemma set_stock_same p : Product.set_stock p (Product.stock p) = p.
Proof. now destruct p. Qed.

Lemma update_stock_absent r product_id new_stock :
  InMemoryProductRepository.find_by_id r product_id = None ->
  InMemoryProductRepository.update_stock r product_id new_stock = r.
Proof.
  unfold InMemoryProductRepository.find_by_id,
    InMemoryProductRepository.update_stock.
  now intros ->.
Qed.

Lemma find_update_stock_eq r product_id new_stock p :
  InMemoryProductRepository.find_by_id r product_id = Some p ->
  InMemoryProductRepository.find_by_id
    (InMemoryProductRepository.update_stock r product_id new_stock) product_id
  = Some (Product.set_stock p new_stock).
Proof.
  unfold InMemoryProductRepository.find_by_id,
    InMemoryProductRepository.update_stock.
  intros ->. simpl. apply get_set_eq.
Qed.

Lemma find_update_stock_ne r product_id new_stock other :
  other <> product_id ->
  InMemoryProductRepository.find_by_id
    (InMemoryProductRepository.update_stock r product_id new_stock) other
  = InMemoryProductRepository.find_by_id r other.
Proof.
  unfold InMemoryProductRepository.find_by_id,
    InMemoryProductRepository.update_stock.
  intros Hne. destruct (Dict.get product_id _); simpl; auto.
  now apply get_set_ne.
Qed.

(** C7. [update_stock] on an identifier that the catalog does not hold
    leaves the repository as it is.  On an identifier that it holds, the
    product found under it afterwards is the former record with [new_stock],
    whatever its sign, as stock and its other fields as they were; every
    other identifier finds what it found before, and the keys of the catalog
    and their order stay. *)
Theorem C7_update_stock_frame :
  forall (r : InMemoryProductRepository.t) (product_id new_stock : Z),
    let r' := InMemoryProductRepository.update_stock r product_id new_stock in
    (InMemoryProductRepository.find_by_id r product_id = None -> r' = r)
    /\ (forall p,
          InMemoryProductRepository.find_by_id r product_id = Some p ->
          (exists p',
              InMemoryProductRepository.find_by_id r' product_id = Some p'
              /\ Product.stock p' = new_stock
              /\ Product.id p' = Product.id p
              /\ Product.name p' = Product.name p
              /\ Product.price p' = Product.price p)
          /\ (forall other,
                other <> product_id ->
                InMemoryProductRepository.find_by_id r' other
                = InMemoryProductRepository.find_by_id r other)
          /\ Dict.keys (InMemoryProductRepository._products r')
             = Dict.keys (InMemoryProductRepository._products r)).
Proof.
  intros r product_id new_stock r'. split.
  - apply update_stock_absent.
  - intros p Hp. split; [|split].
    + exists (Product.set_stock p new_stock). split.
      * now apply find_update_stock_eq.
      * now simpl.
    + intros other Hne. now apply find_update_stock_ne.
    + subst r'. unfold InMemoryProductRepository.update_stock.
      unfold InMemoryProductRepository.find_by_id in Hp. rewrite Hp. simpl.
      eapply keys_set_present; eauto.
Qed.

(** The seeded catalog: product 9 is unknown, product 2 gets stock -3. *)
Lemma C7_update_stock_frame_witness :
  InMemoryProductRepository.update_stock InMemoryProductRepository.__init__ 9 7
  = InMemoryProductRepository.__init__
  /\ exists p',
      InMemoryProductRepository.find_by_id
        (InMemoryProductRepository.update_stock
           InMemoryProductRepository.__init__ 2 (-3)) 2 = Some p'
      /\ Product.stock p' = -3.
Proof.
  split.
  - apply (C7_update_stock_frame InMemoryProductRepository.__init__ 9 7).
    reflexivity.
  - destruct (C7_update_stock_frame InMemoryProductRepository.__init__ 2 (-3))
      as [_ H].
    destruct (H (Product.mk 2 "Mouse Inalámbrico" (Py.literal 4599 100) 20)
                eq_refl) as [[p' [Hf [Hs _]]] _].
    exists p'. split; assumption.
Defined.

(** ** The order store *)

Lemma save_with_id r order i :
  Order.id order = Some i ->
  InMemoryOrderRepository.save r order
  = ({| InMemoryOrderRepository._orders :=
          Dict.set i order (InMemoryOrderRepository._orders r);
        InMemoryOrderRepository._next_id :=
          InMemoryOrderRepository._next_id r |}, order).
Proof. unfold InMemoryOrderRepository.save. now intros ->. Qed.

Lemma save_without_id r order :
  Order.id order = None ->
  InMemoryOrderRepository.save r order
  = (let order' := Order.set_id order (InMemoryOrderRepository._next_id r) in
     ({| InMemoryOrderRepository._orders :=
           Dict.set (InMemoryOrderRepository._next_id r) order'
             (InMemoryOrderRepository._orders r);
         InMemoryOrderRepository._next_id :=
           InMemoryOrderRepository._next_id r + 1 |}, order')).
Proof. unfold InMemoryOrderRepository.save. now intros ->. Qed.

(** What [save] leaves: the saved order carries an identifier and is found
    under it. *)
Lemma save_stores r order :
  let '(r', saved) := InMemoryOrderRepository.save r order in
  exists i,
    Order.id saved = Some i
    /\ InMemoryOrderRepository.find_by_id r' i = Some saved
    /\ forall j,
        j <> i ->
        InMemoryOrderRepository.find_by_id r' j
        = InMemoryOrderRepository.find_by_id r j.
Proof.
  unfold InMemoryOrderRepository.save, InMemoryOrderRepository.find_by_id.
  destruct (Order.id order) as [i|] eqn:E; simpl.
  - exists i. repeat split; auto using get_set_eq, get_set_ne.
  - exists (InMemoryOrderRepository._next_id r).
    repeat split; auto using get_set_eq, get_set_ne.
Qed.

(** C6. Saving an order that carries an identifier leaves the order, hence
    its identifier, and the next-id counter as they were; the order is then
    found under its identifier, in place of what was stored there (the keys
    of the store do not change when the identifier was present), every other
    identifier finds what it found before, and a second save of the same
    order leaves the store as the first one left it. *)
Theorem C6_save_with_id_overwrites :
  forall (r : InMemoryOrderRepository.t) (order : Order.t) (i : Z),
    Order.id order = Some i ->
    let r' := fst (InMemoryOrderRepository.save r order) in
    snd (InMemoryOrderRepository.save r order) = order
    /\ InMemoryOrderRepository._next_id r' = InMemoryOrderRepository._next_id r
    /\ InMemoryOrderRepository.find_by_id r' i = Some order
    /\ (forall j,
          j <> i ->
          InMemoryOrderRepository.find_by_id r' j
          = InMemoryOrderRepository.find_by_id r j)
    /\ (forall previous,
          InMemoryOrderRepository.find_by_id r i = Some previous ->
          Dict.keys (InMemoryOrderRepository._orders r')
          = Dict.keys (InMemoryOrderRepository._orders r))
    /\ InMemoryOrderRepository.save r' order = (r', order).
Proof.
  intros r order i Hid r'. subst r'.
  rewrite (save_with_id r _ _ Hid). simpl.
  unfold InMemoryOrderRepository.find_by_id. simpl.
  repeat split.
  - apply get_set_eq.
  - intros j Hj. now apply get_set_ne.
  - intros previous Hp. eapply keys_set_present; eauto.
  - rewrite (save_with_id _ _ _ Hid). simpl. now rewrite set_set.
Qed.

(** An order with identifier 7, saved in a fresh store. *)
Lemma C6_save_with_id_overwrites_witness :
  let order := Order.mk (Some 7) "Ana" [] "pending" (Some 0) in
  let r' := fst (InMemoryOrderRepository.save InMemoryOrderRepository.__init__
                   order) in
  InMemoryOrderRepository._next_id r' = 1
  /\ InMemoryOrderRepository.find_by_id r' 7 = Some order.
Proof.
  intros order r'.
  destruct (C6_save_with_id_overwrites InMemoryOrderRepository.__init__ order
              7 eq_refl) as [_ [Hn [Hf _]]].
  split; [exact Hn | exact Hf].
Defined.

Lemma assigned_ids_from r orders :
  assigned_ids r orders
  = map (fun n => Some (InMemoryOrderRepository._next_id r + Z.of_nat n))
      (seq 0 (List.length (arriving_without_id orders))).
Proof.
  revert r. induction orders as [|order orders IH]; intros r; [reflexivity|].
  unfold arriving_without_id in *. simpl.
  destruct (Order.id order) as [i|] eqn:E.
  - rewrite (save_with_id r _ _ E), IH. reflexivity.
  - rewrite (save_without_id r _ E). simpl. rewrite IH. simpl.
    rewrite Z.add_0_r. f_equal.
    rewrite <- seq_shift, map_map. apply map_ext. intros n.
    f_equal. lia.
Qed.

(** C5. In a fresh order store, the identifiers that successive [save] calls
    assign to the orders arriving without one are 1, 2, ..., k in call order,
    k being the number of such orders, whatever orders carrying an identifier
    are saved in between. *)
Theorem C5_assigned_ids_sequential :
  forall orders : list Order.t,
    assigned_ids InMemoryOrderRepository.__init__ orders
    = map (fun n => Some (Z.of_nat n))
        (seq 1 (List.length (arriving_without_id orders))).
Proof.
  intros orders. rewrite assigned_ids_from.
  rewrite <- seq_shift, map_map. apply map_ext. intros n.
  change (InMemoryOrderRepository._next_id InMemoryOrderRepository.__init__)
    with 1.
  f_equal. lia.
Qed.

Lemma find_after_save_each orders : forall r i o,
  InMemoryOrderRepository.find_by_id (fst (save_each r orders)) i = Some o ->
  InMemoryOrderRepository.find_by_id r i = Some o
  \/ exists saved, In saved (snd (save_each r orders))
                   /\ Order.id saved = Some i.
Proof.
  induction orders as [|order orders IH]; intros r i o; simpl; auto.
  pose proof (save_stores r order) as Hs.
  destruct (InMemoryOrderRepository.save r order) as [r1 saved].
  destruct Hs as [k [Hk [_ Hother]]].
  specialize (IH r1 i o).
  destruct (save_each r1 orders) as [r2 rest]. simpl in *.
  intros H. destruct (IH H) as [H1 | [s' [Hin Hid]]].
  - destruct (Z.eq_dec i k) as [->|Hne].
    + right. exists saved. auto.
    + left. now rewrite <- (Hother i Hne).
  - right. exists s'. auto.
Qed.

Lemma get_order_run s order_id :
  OrderService.get_order order_id s
  = (match InMemoryOrderRepository.find_by_id
             (OrderService.order_repository s) order_id with
     | None =>
         if Py.formattable order_id
         then Raise (ValueError (OrderNotFound order_id))
         else Raise (ValueError ExceedsDigitLimit)
     | Some order => Ok order
     end, s).
Proof.
  unfold OrderService.get_order, OrderService.bind,
    OrderService.orders_find_by_id. simpl.
  destruct (InMemoryOrderRepository.find_by_id _ _); [reflexivity|].
  unfold OrderService.format, OrderService.raise, Py.format_int.
  now destruct (Py.formattable order_id).
Qed.

(** C8, amended. For an identifier of at most 4300 decimal digits,
    [get_order] raises the order-not-found error exactly when the dictionary
    of the order store holds nothing under it; for every identifier, when
    the dictionary holds an order under it, [get_order] returns that order,
    and when it holds none and the identifier has more digits, the message
    cannot be built and the interpreter's [ValueError] is raised instead; the
    service is the same after the call.  What [save] has just stored is what
    [get_order] returns under the identifier of the saved order.  When the
    order store is a fresh one after some [save] calls, none of which left
    its order with the identifier, of at most 4300 digits, the call raises
    the order-not-found error. *)
Theorem C8_get_order :
  forall (s : OrderService.t) (order_id : Z),
    let stored :=
      Dict.get order_id
        (InMemoryOrderRepository._orders (OrderService.order_repository s)) in
    (Py.formattable order_id = true ->
     (fst (OrderService.get_order order_id s)
      = Raise (ValueError (OrderNotFound order_id))
      <-> stored = None))
    /\ (forall order,
          stored = Some order ->
          fst (OrderService.get_order order_id s) = Ok order)
    /\ (stored = None ->
        Py.formattable order_id = false ->
        fst (OrderService.get_order order_id s)
        = Raise (ValueError ExceedsDigitLimit))
    /\ snd (OrderService.get_order order_id s) = s
    /\ (forall r order,
          OrderService.order_repository s
          = fst (InMemoryOrderRepository.save r order) ->
          Order.id (snd (InMemoryOrderRepository.save r order))
          = Some order_id ->
          fst (OrderService.get_order order_id s)
          = Ok (snd (InMemoryOrderRepository.save r order)))
    /\ (forall orders,
          OrderService.order_repository s
          = fst (save_each InMemoryOrderRepository.__init__ orders) ->
          (forall saved,
              In saved (snd (save_each InMemoryOrderRepository.__init__ orders)) ->
              Order.id saved <> Some order_id) ->
          Py.formattable order_id = true ->
          fst (OrderService.get_order order_id s)
          = Raise (ValueError (OrderNotFound order_id))).
Proof.
  intros s order_id stored. subst stored.
  rewrite get_order_run. cbn [fst snd].
  unfold InMemoryOrderRepository.find_by_id.
  split; [|split; [|split; [|split; [reflexivity|split]]]].
  - intros Hfmt. rewrite Hfmt.
    destruct (Dict.get order_id _); split; congruence.
  - now intros order ->.
  - now intros -> ->.
  - intros r order Hrepo Hid. rewrite Hrepo.
    pose proof (save_stores r order) as Hs.
    destruct (InMemoryOrderRepository.save r order) as [r' saved].
    destruct Hs as [i [Hi [Hfind _]]]. cbn [fst snd] in *.
    assert (i = order_id) by congruence. subst i.
    unfold InMemoryOrderRepository.find_by_id in Hfind. now rewrite Hfind.
  - intros orders Hrepo Hnone Hfmt. rewrite Hfmt.
    destruct (Dict.get order_id _) as [o|] eqn:E; auto.
    rewrite Hrepo in E.
    destruct (find_after_save_each orders _ _ _ E) as [H | [saved [Hin Hid]]].
    + discriminate H.
    + now elim (Hnone saved Hin).
Qed.

(** The seeded service holds no order: identifier 1 is not found. *)
Lemma C8_get_order_witness :
  fst (OrderService.get_order 1 seeded)
  = Raise (ValueError (OrderNotFound 1)).
Proof.
  apply (proj1 (C8_get_order seeded 1)).
  - vm_compute. reflexivity.
  - reflexivity.
Defined.

(** C8 as stated fails: the seeded service stores nothing under the
    identifier 10^4300, yet [get_order] does not raise the order-not-found
    error for it: the identifier, of 4301 digits, cannot be formatted into
    the message. *)
Lemma C8_counterexample :
  Dict.get Py.int_str_bound
    (InMemoryOrderRepository._orders (OrderService.order_repository seeded))
  = None
  /\ fst (OrderService.get_order Py.int_str_bound seeded)
     = Raise (ValueError ExceedsDigitLimit).
Proof. split; vm_compute; reflexivity. Qed.

(** ** The loop of [create_order] *)

Lemma validate_items_cons product_id quantity items order_items s :
  OrderService.validate_items ((product_id, quantity) :: items) order_items s
  = match Dict.get product_id (catalog s) with
    | None =>
        (if Py.formattable product_id
         then Raise (ValueError (ProductNotFound product_id))
         else Raise (ValueError ExceedsDigitLimit), s)
    | Some product =>
        if Product.stock product <? quantity then
          (if Py.formattable (Product.stock product)
              && Py.formattable quantity
           then Raise (ValueError
                         (InsufficientStock (Product.name product)
                            (Product.stock product) quantity))
           else Raise (ValueError ExceedsDigitLimit), s)
        else if Py.formattable quantity then
          match OrderItem.subtotal (catalog s)
                  (OrderItem.mk product_id quantity) with
          | Raise e => (Raise e, s)
          | Ok _ =>
              let s1 :=
                snd (OrderService.products_update_stock product_id
                       (Product.stock product - quantity) s) in
              if Py.formattable product_id
                 && Py.formattable (Product.stock product)
                 && Py.formattable (Product.stock product - quantity)
              then OrderService.validate_items items
                     (order_items ++ [OrderItem.mk product_id quantity]) s1
              else (Raise (ValueError ExceedsDigitLimit), s1)
          end
        else (Raise (ValueError ExceedsDigitLimit), s)
    end.
Proof.
  cbn [OrderService.validate_items].
  unfold OrderService.bind at 1. cbn [OrderService.products_find_by_id].
  unfold InMemoryProductRepository.find_by_id, catalog.
  destruct (Dict.get product_id _) as [product|] eqn:Hget.
  - destruct (Product.stock product <? quantity).
    + unfold OrderService.bind, OrderService.format, OrderService.raise,
        Py.format_int.
      destruct (Py.formattable (Product.stock product)),
        (Py.formattable quantity); reflexivity.
    + unfold OrderService.bind at 1. unfold OrderService.format at 1.
      unfold Py.format_int at 1.
      destruct (Py.formattable quantity); [|reflexivity].
      unfold OrderService.bind at 1, OrderService.item_subtotal at 1.
      destruct (OrderItem.subtotal _ _); [|reflexivity].
      unfold OrderService.bind at 1.
      unfold OrderService.products_update_stock at 1.
      unfold InMemoryProductRepository.update_stock_print.
      rewrite Hget. unfold Py.format_int.
      destruct (Py.formattable product_id),
        (Py.formattable (Product.stock product)),
        (Py.formattable (Product.stock product - quantity)); reflexivity.
  - unfold OrderService.bind, OrderService.format, OrderService.raise,
      Py.format_int.
    destruct (Py.formattable product_id); reflexivity.
Qed.

Lemma validate_items_app pre : forall post order_items s,
  OrderService.validate_items (pre ++ post) order_items s
  = match OrderService.validate_items pre order_items s with
    | (Ok order_items', s') => OrderService.validate_items post order_items' s'
    | (Raise e, s') => (Raise e, s')
    end.
Proof.
  induction pre as [|[product_id quantity] pre IH]; intros post order_items s.
  - reflexivity.
  - rewrite <- app_comm_cons, !validate_items_cons.
    destruct (Dict.get product_id (catalog s)) as [product|];
      [|now destruct (Py.formattable product_id)].
    destruct (Product.stock product <? quantity);
      [now destruct (_ && _)|].
    destruct (Py.formattable quantity); [|reflexivity].
    destruct (OrderItem.subtotal _ _); [|reflexivity].
    cbv zeta. destruct (_ && _); [apply IH | reflexivity].
Qed.

Lemma update_stock_frame product_id new_stock s :
  same_but_catalog s
    (snd (OrderService.products_update_stock product_id new_stock s)).
Proof. now repeat split. Qed.

(** The loop touches the catalog only. *)
Lemma validate_items_frame items : forall order_items s,
  same_but_catalog s (snd (OrderService.validate_items items order_items s)).
Proof.
  induction items as [|[product_id quantity] items IH]; intros order_items s.
  - now repeat split.
  - rewrite validate_items_cons.
    destruct (Dict.get product_id (catalog s)) as [product|];
      [|now destruct (Py.formattable product_id)].
    destruct (Product.stock product <? quantity);
      [now destruct (_ && _)|].
    destruct (Py.formattable quantity); [|now repeat split].
    destruct (OrderItem.subtotal _ _); [|now repeat split].
    cbv zeta. destruct (_ && _); [|apply update_stock_frame].
    match goal with
    | |- same_but_catalog _ (snd (OrderService.validate_items _ ?acc ?s1)) =>
        specialize (IH acc s1)
    end.
    destruct IH as [H1 [H2 H3]].
    repeat split; [rewrite H1|rewrite H2|rewrite H3]; reflexivity.
Qed.

Lemma requested_app product_id xs ys :
  requested product_id (xs ++ ys)
  = requested product_id xs + requested product_id ys.
Proof.
  induction xs as [|[k q] xs IH]; simpl; [reflexivity|]. rewrite IH. lia.
Qed.

Lemma decremented_nil heap : decremented heap [] heap.
Proof.
  intros product_id. simpl. destruct (Dict.get product_id heap) as [p|];
    simpl; [|reflexivity].
  now rewrite Z.sub_0_r, set_stock_same.
Qed.

(** One turn of the loop keeps the catalog in step with the pairs seen. *)
Lemma decremented_step heap0 seen s product_id quantity p0 :
  decremented heap0 seen (catalog s) ->
  Dict.get product_id heap0 = Some p0 ->
  decremented heap0 (seen ++ [(product_id, quantity)])
    (catalog
       (snd (OrderService.products_update_stock product_id
               (Product.stock p0 - requested product_id seen - quantity) s))).
Proof.
  intros Hdec Hp0 k. unfold catalog in *. simpl.
  pose proof (Hdec product_id) as Hcur. rewrite Hp0 in Hcur. simpl in Hcur.
  destruct (Z.eq_dec k product_id) as [->|Hne].
  - fold (InMemoryProductRepository.find_by_id
            (OrderService.product_repository s) product_id) in Hcur.
    fold (InMemoryProductRepository.find_by_id
            (InMemoryProductRepository.update_stock
               (OrderService.product_repository s) product_id
               (Product.stock p0 - requested product_id seen - quantity))
            product_id).
    rewrite (find_update_stock_eq _ _ _ _ Hcur), Hp0. simpl.
    rewrite requested_app. simpl. rewrite Z.eqb_refl.
    rewrite set_stock_set_stock. do 2 f_equal. lia.
  - fold (InMemoryProductRepository.find_by_id
            (InMemoryProductRepository.update_stock
               (OrderService.product_repository s) product_id
               (Product.stock p0 - requested product_id seen - quantity)) k).
    rewrite (find_update_stock_ne _ _ _ _ Hne).
    unfold InMemoryProductRepository.find_by_id. rewrite (Hdec k).
    rewrite requested_app. simpl.
    assert (E : (product_id =? k) = false) by (apply Z.eqb_neq; congruence).
    rewrite E. now rewrite !Z.add_0_r.
Qed.

Lemma subtotal_convertible heap product_id quantity p :
  Dict.get product_id heap = Some p ->
  convertible quantity = true ->
  OrderItem.subtotal heap (OrderItem.mk product_id quantity)
  = Ok (Py.Float (Py.fmul (Product.price p) (Py.round_int quantity))).
Proof.
  unfold OrderItem.subtotal, convertible. simpl. intros -> Hc. simpl.
  unfold Py.float_of_int. now rewrite Hc.
Qed.

Lemma subtotal_not_convertible heap product_id quantity p :
  Dict.get product_id heap = Some p ->
  convertible quantity = false ->
  OrderItem.subtotal heap (OrderItem.mk product_id quantity)
  = Raise OverflowError.
Proof.
  unfold OrderItem.subtotal, convertible. simpl. intros -> Hc. simpl.
  unfold Py.float_of_int. now rewrite Hc.
Qed.

Lemma after_write_step heap0 seen s product_id quantity p0 :
  decremented heap0 seen (catalog s) ->
  Dict.get product_id heap0 = Some p0 ->
  decremented heap0 (seen ++ [(product_id, quantity)])
    (catalog (after_write heap0 seen (product_id, quantity) s)).
Proof.
  intros Hdec Hp0. unfold after_write. cbn [fst snd]. rewrite Hp0.
  now apply decremented_step.
Qed.

(** One turn of the loop against the stateless account of it. *)
Lemma validate_items_turn heap0 seen s request items acc :
  decremented heap0 seen (catalog s) ->
  OrderService.validate_items (request :: items) acc s
  = match turn_of heap0 seen request with
    | Passes =>
        OrderService.validate_items items (acc ++ [item_of request])
          (after_write heap0 seen request s)
    | RaisesBefore e => (Raise e, s)
    | RaisesAfter e => (Raise e, after_write heap0 seen request s)
    end.
Proof.
  intros Hdec. destruct request as [product_id quantity].
  rewrite validate_items_cons. unfold turn_of, after_write, item_of.
  cbn [fst snd]. pose proof (Hdec product_id) as Hcur. rewrite Hcur.
  destruct (Dict.get product_id heap0) as [p0|]; cbn [option_map].
  - cbn [option_map] in Hcur. cbn [Product.stock Product.set_stock Product.name].
    destruct (_ <? quantity).
    + now destruct (_ && _).
    + destruct (Py.formattable quantity); cbn [negb]; [|reflexivity].
      destruct (convertible quantity) eqn:Hq; cbn [negb].
      * rewrite (subtotal_convertible _ _ _ _ Hcur Hq). cbv zeta.
        now destruct (_ && _).
      * now rewrite (subtotal_not_convertible _ _ _ _ Hcur Hq).
  - now destruct (Py.formattable product_id).
Qed.

Lemma turn_known heap seen request :
  (turn_of heap seen request = Passes
   \/ exists e, turn_of heap seen request = RaisesAfter e) ->
  exists p, Dict.get (fst request) heap = Some p.
Proof.
  unfold turn_of. destruct (Dict.get (fst request) heap) as [p|]; eauto.
  intros [H|[e H]]; discriminate.
Qed.

(** A pair goes through exactly when it is in stock, convertible and
    printable. *)
Lemma turn_passes heap seen product_id quantity :
  turn_of heap seen (product_id, quantity) = Passes
  <-> (exists p,
          Dict.get product_id heap = Some p
          /\ (quantity <=? Product.stock p - requested product_id seen) = true)
      /\ convertible quantity = true
      /\ printable heap seen (product_id, quantity) = true.
Proof.
  unfold turn_of, printable. cbn [fst snd].
  destruct (Dict.get product_id heap) as [p|].
  2: { split; [discriminate|]. intros [[p [H _]] _]. discriminate. }
  rewrite Z.ltb_antisym.
  destruct (quantity <=? Product.stock p - requested product_id seen) eqn:Hle,
    (Py.formattable quantity), (convertible quantity),
    (Py.formattable product_id),
    (Py.formattable (Product.stock p - requested product_id seen)),
    (Py.formattable (Product.stock p - requested product_id seen - quantity));
    cbn [negb andb];
    (split;
     [ first [discriminate | intros _; repeat split; eauto]
     | intros [[p' [Hp' H1]] [H2 H3]];
       assert (p' = p) by congruence; subst p';
       first [reflexivity | congruence] ]).
Qed.

Lemma processed_none heap items : forall seen,
  snd (processed heap seen items) = None
  <-> in_stock heap seen items = true
      /\ all_convertible items = true
      /\ all_printable heap seen items = true.
Proof.
  induction items as [|[product_id quantity] items IH]; intros seen.
  - simpl. tauto.
  - cbn [processed in_stock all_convertible all_printable forallb snd].
    pose proof (turn_passes heap seen product_id quantity) as Ht.
    destruct (turn_of heap seen (product_id, quantity)) eqn:Hturn.
    + destruct (proj1 Ht eq_refl) as [[p [Hp Hle]] [Hq Hpr]].
      rewrite Hp, Hle, Hq, Hpr. cbn [andb].
      specialize (IH (seen ++ [(product_id, quantity)])).
      destruct (processed heap (seen ++ [(product_id, quantity)]) items).
      exact IH.
    + split; [discriminate|]. intros [Hin [Hconv Hpr]].
      destruct (Dict.get product_id heap) as [p|] eqn:Hp; [|discriminate].
      apply andb_true_iff in Hin, Hconv, Hpr.
      assert (RaisesBefore e = Passes); [|discriminate].
      apply Ht. split; [exists p; split; [reflexivity | tauto] | tauto].
    + split; [discriminate|]. intros [Hin [Hconv Hpr]].
      destruct (Dict.get product_id heap) as [p|] eqn:Hp; [|discriminate].
      apply andb_true_iff in Hin, Hconv, Hpr.
      assert (RaisesAfter e = Passes); [|discriminate].
      apply Ht. split; [exists p; split; [reflexivity | tauto] | tauto].
Qed.

Lemma processed_all heap items : forall seen,
  snd (processed heap seen items) = None ->
  fst (processed heap seen items) = items.
Proof.
  induction items as [|request items IH]; intros seen; [reflexivity|].
  cbn [processed]. destruct (turn_of heap seen request); try discriminate.
  specialize (IH (seen ++ [request])).
  destruct (processed heap (seen ++ [request]) items) as [pre e]. simpl in *.
  intros H. now rewrite (IH H).
Qed.

Lemma processed_prefix heap items : forall seen,
  exists post, items = fst (processed heap seen items) ++ post.
Proof.
  induction items as [|request items IH]; intros seen; [now exists []|].
  cbn [processed]. destruct (turn_of heap seen request).
  - destruct (IH (seen ++ [request])) as [post Hpost].
    destruct (processed heap (seen ++ [request]) items) as [pre e].
    simpl in *. exists post. now rewrite Hpost at 1.
  - now exists (request :: items).
  - now exists items.
Qed.

(** Where the loop stops, and on what. *)
Lemma processed_some heap items : forall seen e,
  snd (processed heap seen items) = Some e ->
  exists pre request post,
    items = pre ++ request :: post
    /\ in_stock heap seen pre = true
    /\ all_convertible pre = true
    /\ all_printable heap seen pre = true
    /\ (turn_of heap (seen ++ pre) request = RaisesBefore e
         /\ fst (processed heap seen items) = pre
        \/ turn_of heap (seen ++ pre) request = RaisesAfter e
           /\ fst (processed heap seen items) = pre ++ [request]).
Proof.
  induction items as [|[product_id quantity] items IH]; intros seen e;
    [discriminate|].
  cbn [processed].
  pose proof (turn_passes heap seen product_id quantity) as Ht.
  destruct (turn_of heap seen (product_id, quantity)) as [|e'|e'] eqn:Hturn.
  - destruct (proj1 Ht eq_refl) as [[p [Hp Hle]] [Hq Hpr]].
    specialize (IH (seen ++ [(product_id, quantity)]) e).
    destruct (processed heap (seen ++ [(product_id, quantity)]) items)
      as [pre0 e0].
    cbn [fst snd] in *. intros H.
    destruct (IH H) as [pre [request [post [Hsplit [Hin [Hconv [Hpri Hcase]]]]]]].
    exists ((product_id, quantity) :: pre), request, post.
    rewrite <- !app_assoc in Hcase. cbn [app] in Hcase.
    split; [now rewrite Hsplit|].
    split; [cbn [in_stock]; now rewrite Hp, Hle, Hin|].
    split; [unfold all_convertible in *; cbn [forallb snd];
            now rewrite Hq, Hconv|].
    split; [cbn [all_printable]; now rewrite Hpr, Hpri|].
    destruct Hcase as [[H1 H2]|[H1 H2]]; [left|right];
      (split; [exact H1 | now rewrite H2]).
  - cbn [fst snd]. intros [= <-].
    exists [], (product_id, quantity), items. rewrite app_nil_r.
    repeat split. left. now split.
  - cbn [fst snd]. intros [= <-].
    exists [], (product_id, quantity), items. rewrite app_nil_r.
    repeat split. right. now split.
Qed.

(** The loop against the stateless account of it. *)
Lemma validate_items_outcome heap0 items : forall seen acc s,
  decremented heap0 seen (catalog s) ->
  let r := OrderService.validate_items items acc s in
  same_but_catalog s (snd r)
  /\ decremented heap0 (seen ++ fst (processed heap0 seen items))
       (catalog (snd r))
  /\ fst r = match snd (processed heap0 seen items) with
             | None => Ok (acc ++ map item_of items)
             | Some e => Raise e
             end.
Proof.
  induction items as [|request items IH]; intros seen acc s Hdec r; subst r.
  - simpl. rewrite !app_nil_r. now repeat split.
  - split; [apply validate_items_frame|].
    rewrite (validate_items_turn heap0 seen s request items acc Hdec).
    cbn [processed].
    pose proof (turn_known heap0 seen request) as Hknown.
    destruct (turn_of heap0 seen request) as [|e|e].
    + destruct Hknown as [p0 Hp0]; [now left|].
      destruct request as [product_id quantity].
      specialize (IH (seen ++ [(product_id, quantity)])
                    (acc ++ [item_of (product_id, quantity)])
                    (after_write heap0 seen (product_id, quantity) s)
                    (after_write_step _ _ _ _ _ _ Hdec Hp0)).
      destruct IH as [_ [Hd Hr]].
      destruct (processed heap0 (seen ++ [(product_id, quantity)]) items)
        as [pre e].
      cbn [fst snd] in *. split.
      * now rewrite <- app_assoc in Hd.
      * rewrite Hr. destruct e; [reflexivity|].
        now rewrite <- app_assoc.
    + cbn [fst snd]. rewrite app_nil_r. now split.
    + destruct Hknown as [p0 Hp0]; [right; eauto|].
      destruct request as [product_id quantity].
      cbn [fst snd]. split; [|reflexivity].
      exact (after_write_step _ _ _ _ _ _ Hdec Hp0).
Qed.


Lemma validate_items_unknown heap0 seen s product_id quantity post acc :
  decremented heap0 seen (catalog s) ->
  Dict.get product_id heap0 = None ->
  Py.formattable product_id = true ->
  OrderService.validate_items ((product_id, quantity) :: post) acc s
  = (Raise (ValueError (ProductNotFound product_id)), s).
Proof.
  intros Hdec Hp0 Hf.
  rewrite (validate_items_turn heap0 seen s _ post acc Hdec).
  unfold turn_of. cbn [fst snd]. now rewrite Hp0, Hf.
Qed.

(** Pairs that are all in stock, convertible and printable go through the
    loop: every pair becomes an item, and the catalog ends in step with all
    of them. *)
Lemma validate_items_passes heap0 items : forall seen acc s,
  decremented heap0 seen (catalog s) ->
  in_stock heap0 seen items = true ->
  all_convertible items = true ->
  all_printable heap0 seen items = true ->
  exists s',
    OrderService.validate_items items acc s
    = (Ok (acc ++ map item_of items), s')
    /\ same_but_catalog s s'
    /\ decremented heap0 (seen ++ items) (catalog s').
Proof.
  intros seen acc s Hdec Hin Hconv Hpr.
  destruct (validate_items_outcome heap0 items seen acc s Hdec)
    as [Hframe [Hd Hres]].
  assert (Hnone : snd (processed heap0 seen items) = None)
    by (apply processed_none; auto).
  rewrite Hnone in Hres. rewrite (processed_all _ _ _ Hnone) in Hd.
  destruct (OrderService.validate_items items acc s) as [res s'].
  cbn [fst snd] in *. subst res. exists s'. auto.
Qed.

Lemma in_stock_known heap seen items :
  in_stock heap seen items = true -> all_known heap items = true.
Proof.
  revert seen. induction items as [|[k q] items IH]; intros seen; simpl; auto.
  unfold Dict.contains. destruct (Dict.get k heap); [|discriminate].
  intros H. apply andb_true_iff in H. destruct H as [_ H]. simpl. eauto.
Qed.

(** ** Totals *)

Lemma float_of_zero : Py.float_of_int 0 = Ok (S754_zero false).
Proof. reflexivity. Qed.

Lemma sum_from_floats xs : forall acc,
  Forall (fun x => exists f, x = Ok (Py.Float f)) xs ->
  acc = Py.Int 0 \/ (exists f, acc = Py.Float f) ->
  exists total, Py.sum_from acc xs = Ok total.
Proof.
  induction xs as [|x xs IH]; intros acc Hxs Hacc; simpl.
  - eauto.
  - inversion Hxs as [|? ? [f ->] Hrest]; subst. cbn [exc_bind].
    destruct Hacc as [->|[g ->]]; cbn [Py.add].
    + rewrite float_of_zero. cbn [exc_bind]. apply IH; eauto.
    + cbn [exc_bind]. apply IH; eauto.
Qed.

(** The items built for known, convertible pairs have, in a catalog in step
    with the starting one, the subtotals computed at the starting prices. *)
Lemma subtotals_at_start heap0 seen heap items :
  decremented heap0 seen heap ->
  all_known heap0 items = true ->
  map (OrderItem.subtotal heap) (map item_of items)
  = map (price_times_quantity heap0) items.
Proof.
  intros Hdec. induction items as [|[k q] items IH]; simpl; auto.
  intros H. apply andb_true_iff in H. destruct H as [Hk H].
  rewrite (IH H). f_equal.
  unfold OrderItem.subtotal, price_times_quantity, item_of, Dict.contains in *.
  simpl in *. rewrite (Hdec k).
  destruct (Dict.get k heap0); [reflexivity | discriminate].
Qed.

Lemma price_times_quantity_floats heap items :
  all_known heap items = true ->
  all_convertible items = true ->
  Forall (fun x => exists f, x = Ok (Py.Float f))
    (map (price_times_quantity heap) items).
Proof.
  induction items as [|[k q] items IH]; simpl; intros Hk Hc; constructor.
  - apply andb_true_iff in Hk. apply andb_true_iff in Hc.
    destruct Hk as [Hk _], Hc as [Hc _].
    unfold price_times_quantity, Dict.contains in *. simpl in *.
    destruct (Dict.get k heap); [|discriminate]. simpl.
    unfold Py.float_of_int. unfold convertible in Hc. rewrite Hc. simpl. eauto.
  - apply andb_true_iff in Hk. apply andb_true_iff in Hc.
    apply IH; tauto.
Qed.

(** ** [create_order] *)

Lemma create_order_raises now customer_name items s e s1 :
  OrderService.validate_items items [] s = (Raise e, s1) ->
  OrderService.create_order now customer_name items s = (Raise e, s1).
Proof.
  intros H. unfold OrderService.create_order, OrderService.bind at 1.
  now rewrite H.
Qed.

(** After the loop: the order is saved, then the confirmation is printed. *)
Lemma create_order_returns now customer_name items s order_items s1 total :
  OrderService.validate_items items [] s = (Ok order_items, s1) ->
  let saved :=
    InMemoryOrderRepository.save (OrderService.order_repository s1)
      (Order.new now None customer_name (Some order_items)) in
  Order.total (catalog s1) (snd saved) = Ok total ->
  exists printed,
    INotificationService.send_order_confirmation
      (OrderService.notification_service s1) (catalog s1) (snd saved)
    = Ok (printed, true)
    /\ OrderService.create_order now customer_name items s
       = (Ok (snd saved),
          {| OrderService.order_repository := fst saved;
             OrderService.product_repository :=
               OrderService.product_repository s1;
             OrderService.notification_service :=
               OrderService.notification_service s1;
             OrderService.outbox := OrderService.outbox s1 ++ [printed] |}).
Proof.
  intros Hloop saved Htotal.
  unfold OrderService.create_order, OrderService.bind at 1. rewrite Hloop.
  unfold OrderService.bind at 1, OrderService.orders_save.
  fold saved. destruct saved as [repository order] eqn:Hsaved.
  simpl in Htotal |- *.
  unfold OrderService.bind, OrderService.notify, OrderService.ret. simpl.
  fold (catalog s1).
  unfold INotificationService.send_order_confirmation.
  destruct (OrderService.notification_service s1);
    rewrite Htotal; simpl; eexists; split; reflexivity.
Qed.

Lemma create_order_catalog now customer_name items s :
  catalog (snd (OrderService.create_order now customer_name items s))
  = catalog (snd (OrderService.validate_items items [] s)).
Proof.
  unfold OrderService.create_order, OrderService.bind at 1.
  destruct (OrderService.validate_items items [] s) as [[order_items|e] s1];
    [|reflexivity].
  unfold OrderService.bind at 1, OrderService.orders_save.
  destruct (InMemoryOrderRepository.save _ _) as [repository order].
  unfold OrderService.bind, OrderService.notify. simpl.
  destruct (INotificationService.send_order_confirmation _ _ _) as [[? ?]|];
    reflexivity.
Qed.

(** C10. [create_order] on an empty list of pairs returns an order with no
    item, total 0, status "pending" and the identifier that the store's
    counter held; the order is stored under that identifier and the counter
    moves on by one; the product repository is as before; the notification
    service has been called on that order, and what it printed is the last
    entry of the outbox. *)
Theorem C10_create_order_empty :
  forall (now : datetime) (customer_name : string) (s : OrderService.t),
    let next :=
      InMemoryOrderRepository._next_id (OrderService.order_repository s) in
    let r := OrderService.create_order now customer_name [] s in
    exists order,
      fst r = Ok order
      /\ Order.items order = []
      /\ Order.total (catalog (snd r)) order = Ok (Py.Int 0)
      /\ Order.status order = "pending"
      /\ Order.customer_name order = customer_name
      /\ Order.id order = Some next
      /\ InMemoryOrderRepository.find_by_id
           (OrderService.order_repository (snd r)) next = Some order
      /\ InMemoryOrderRepository._next_id
           (OrderService.order_repository (snd r)) = next + 1
      /\ OrderService.product_repository (snd r)
         = OrderService.product_repository s
      /\ exists printed,
          INotificationService.send_order_confirmation
            (OrderService.notification_service s) (catalog s) order
          = Ok (printed, true)
          /\ OrderService.outbox (snd r) = OrderService.outbox s ++ [printed].
Proof.
  intros now customer_name s next r.
  destruct (create_order_returns now customer_name [] s [] s (Py.Int 0)
              eq_refl eq_refl) as [printed [Hsend Hrun]].
  subst r. rewrite Hrun. simpl in *.
  eexists. split; [reflexivity|]. simpl.
  repeat split.
  - unfold InMemoryOrderRepository.find_by_id. simpl. apply get_set_eq.
  - exists printed. split; [exact Hsend | reflexivity].
Qed.

(** ** Stock never goes negative *)

Lemma validate_items_nonneg items : forall order_items s,
  stocks_nonneg (catalog s) ->
  stocks_nonneg
    (catalog (snd (OrderService.validate_items items order_items s))).
Proof.
  induction items as [|[product_id quantity] items IH];
    intros order_items s Hs; [exact Hs|].
  rewrite validate_items_cons.
  destruct (Dict.get product_id (catalog s)) as [product|] eqn:Hp;
    [|now destruct (Py.formattable product_id)].
  destruct (Product.stock product <? quantity) eqn:Hlt;
    [now destruct (_ && _)|].
  destruct (Py.formattable quantity); [|exact Hs].
  destruct (OrderItem.subtotal _ _); [|exact Hs].
  assert (Hw : stocks_nonneg
                 (catalog
                    (snd (OrderService.products_update_stock product_id
                            (Product.stock product - quantity) s)))).
  { unfold catalog in *. simpl.
    unfold InMemoryProductRepository.update_stock. rewrite Hp. simpl.
    apply Forall_values_set; [exact Hs|]. simpl.
    apply Z.ltb_ge in Hlt. lia. }
  cbv zeta. destruct (_ && _); [now apply IH | exact Hw].
Qed.

Lemma perform_nonneg s c :
  stocks_nonneg (catalog s) -> stocks_nonneg (catalog (perform s c)).
Proof.
  intros Hs. destruct c as [now customer_name items|order_id| |]; simpl.
  - rewrite create_order_catalog. now apply validate_items_nonneg.
  - now rewrite get_order_run.
  - exact Hs.
  - exact Hs.
Qed.

(** C4. From a catalog without negative stock, any sequence of calls of
    [create_order], [get_order], [list_orders] and [get_available_products],
    each returning or raising, leaves a catalog without negative stock. *)
Theorem C4_stock_never_negative :
  forall (s : OrderService.t) (calls : list call),
    stocks_nonneg (catalog s) ->
    stocks_nonneg (catalog (perform_all s calls)).
Proof.
  intros s calls. revert s. unfold perform_all.
  induction calls as [|c calls IH]; intros s Hs; simpl.
  - exact Hs.
  - apply IH. now apply perform_nonneg.
Qed.

(** The seeded service after the calls of the demonstration, the second of
    which raises. *)
Lemma C4_stock_never_negative_witness :
  stocks_nonneg
    (catalog
       (perform_all seeded
          [ GetAvailableProducts;
            CreateOrder 0 "María González" [(1, 1); (2, 2); (4, 1)];
            CreateOrder 1 "Carlos Ruiz" [(1, 10)];
            ListOrders ])).
Proof.
  apply C4_stock_never_negative.
  unfold stocks_nonneg. simpl. repeat constructor; simpl; lia.
Defined.

(** ** Orders that go through *)

Lemma all_known_get heap items product_id quantity :
  all_known heap items = true ->
  In (product_id, quantity) items ->
  exists p, Dict.get product_id heap = Some p.
Proof.
  unfold all_known. rewrite forallb_forall. intros H Hin.
  specialize (H _ Hin). unfold Dict.contains in H. simpl in H.
  destruct (Dict.get product_id heap); [eauto | discriminate].
Qed.

(** An order of pairs in stock, convertible and printable is created, with
    the total and the stock that the pairs determine. *)
Lemma create_order_in_stock now customer_name items s :
  in_stock (catalog s) [] items = true ->
  all_convertible items = true ->
  all_printable (catalog s) [] items = true ->
  exists order total s',
    OrderService.create_order now customer_name items s = (Ok order, s')
    /\ Order.items order = map item_of items
    /\ Order.total (catalog s') order = Ok total
    /\ sum_of_price_times_quantity (catalog s) items = Ok total
    /\ decremented (catalog s) items (catalog s').
Proof.
  intros Hin Hconv Hpr.
  destruct (validate_items_passes (catalog s) items [] [] s
              (decremented_nil _) Hin Hconv Hpr)
    as [s1 [Hloop [Hframe Hdec]]].
  simpl in Hloop, Hdec.
  pose proof (in_stock_known _ _ _ Hin) as Hknown.
  destruct (sum_from_floats (map (price_times_quantity (catalog s)) items)
              (Py.Int 0) (price_times_quantity_floats _ _ Hknown Hconv)
              (or_introl eq_refl)) as [total Htotal].
  assert (Ht : Order.total (catalog s1)
                 (snd (InMemoryOrderRepository.save
                         (OrderService.order_repository s1)
                         (Order.new now None customer_name
                            (Some (map item_of items))))) = Ok total).
  { unfold Order.total, InMemoryOrderRepository.save. simpl.
    rewrite (subtotals_at_start _ _ _ _ Hdec Hknown). exact Htotal. }
  destruct (create_order_returns now customer_name items s _ s1 total
              Hloop Ht) as [printed [_ Hrun]].
  eexists. exists total. eexists. split; [exact Hrun|].
  repeat split; auto.
Qed.

(** C1, amended. When every pair names a product of the catalog whose
    stock, at the time the pair is processed, covers the quantity, every
    quantity is in the range of [float], and the identifiers, quantities and
    stocks that the call prints have at most 4300 decimal digits,
    [create_order] returns an order whose total is the sum of unit price
    times quantity over the pairs, and every product of the catalog is left
    with its stock less the total quantity requested of it, its other fields
    as they were.  On the seeded catalog, the pairs (1,1), (2,2), (4,1) give
    an order of total 1591.97 and leave stock 4, 18 and 7 for the products
    1, 2 and 4. *)
Theorem C1_create_order_succeeds :
  (forall (now : datetime) (customer_name : string) (items : list (Z * Z))
          (s : OrderService.t),
      in_stock (catalog s) [] items = true ->
      all_convertible items = true ->
      all_printable (catalog s) [] items = true ->
      let r := OrderService.create_order now customer_name items s in
      exists order total,
        fst r = Ok order
        /\ Order.total (catalog (snd r)) order = Ok total
        /\ sum_of_price_times_quantity (catalog s) items = Ok total
        /\ forall product_id p,
            Dict.get product_id (catalog s) = Some p ->
            Dict.get product_id (catalog (snd r))
            = Some (Product.set_stock p
                      (Product.stock p - requested product_id items)))
  /\ (forall now : datetime,
        let r :=
          OrderService.create_order now "María González"
            [(1, 1); (2, 2); (4, 1)] seeded in
        exists order,
          fst r = Ok order
          /\ Order.total (catalog (snd r)) order
             = Ok (Py.Float (Py.literal 159197 100))
          /\ option_map Product.stock (Dict.get 1 (catalog (snd r))) = Some 4
          /\ option_map Product.stock (Dict.get 2 (catalog (snd r))) = Some 18
          /\ option_map Product.stock (Dict.get 4 (catalog (snd r))) = Some 7).
Proof.
  split.
  - intros now customer_name items s Hin Hconv Hpr r.
    destruct (create_order_in_stock now customer_name items s Hin Hconv Hpr)
      as [order [total [s' [Hrun [_ [Ht [Hsum Hdec]]]]]]].
    subst r. rewrite Hrun. simpl. exists order, total.
    repeat split; auto.
    intros product_id p Hp. now rewrite (Hdec product_id), Hp.
  - intros now r. subst r. eexists.
    split; [vm_compute; reflexivity|].
    repeat split; vm_compute; reflexivity.
Qed.

(** Two units of product 3 from the seeded catalog. *)
Lemma C1_create_order_succeeds_witness :
  exists order total,
    fst (OrderService.create_order 0 "Ana" [(3, 2)] seeded) = Ok order
    /\ Order.total
         (catalog (snd (OrderService.create_order 0 "Ana" [(3, 2)] seeded)))
         order = Ok total
    /\ sum_of_price_times_quantity (catalog seeded) [(3, 2)] = Ok total.
Proof.
  destruct (proj1 C1_create_order_succeeds 0 "Ana" [(3, 2)] seeded
              eq_refl eq_refl ltac:(vm_compute; reflexivity))
    as [order [total [H1 [H2 [H3 _]]]]].
  exists order, total. repeat split; assumption.
Defined.

(** C1 as stated fails: product 1 is in the seeded catalog and its stock, 5,
    is at least the requested quantity -2^1024, yet the call raises
    [OverflowError] when the subtotal of the item is computed.  The quantity
    need not be negative: a catalog that holds 2^1024 units of a product
    cannot sell them in one pair.  Nor need the quantity be large: from a
    stock of 10^4300, which [update_stock] can set, one unit is in stock,
    but the line that [update_stock] prints cannot format the stock; the
    call raises once the stock is written, and no order is saved. *)
Lemma C1_counterexample :
  (in_stock (catalog seeded) [] [(1, - 2 ^ 1024)] = true
   /\ fst (OrderService.create_order 0 "Ana" [(1, - 2 ^ 1024)] seeded)
      = Raise OverflowError)
  /\ (let s :=
        OrderService.mk InMemoryOrderRepository.__init__
          (InMemoryProductRepository.mk
             [(1, Product.mk 1 "Laptop Gaming" (Py.literal 120000 100)
                    (2 ^ 1024))])
          INotificationService.EmailNotificationService [] in
      in_stock (catalog s) [] [(1, 2 ^ 1024)] = true
      /\ OrderService.create_order 0 "Ana" [(1, 2 ^ 1024)] s
         = (Raise OverflowError, s))
  /\ (let s :=
        OrderService.mk InMemoryOrderRepository.__init__
          (InMemoryProductRepository.update_stock
             InMemoryProductRepository.__init__ 1 Py.int_str_bound)
          INotificationService.EmailNotificationService [] in
      let r := OrderService.create_order 0 "Ana" [(1, 1)] s in
      in_stock (catalog s) [] [(1, 1)] = true
      /\ all_convertible [(1, 1)] = true
      /\ fst r = Raise (ValueError ExceedsDigitLimit)
      /\ option_map Product.stock (Dict.get 1 (catalog (snd r)))
         = Some (Py.int_str_bound - 1)
      /\ InMemoryOrderRepository.find_all (OrderService.order_repository (snd r))
         = []).
Proof. repeat (cbv zeta; apply conj); vm_compute; reflexivity. Qed.

(** ** Orders that are refused *)

(** C2, amended. When the pairs before a pair (product_id, quantity) have
    gone through the loop, and the product found for the pair at that moment
    has a stock below the quantity, both of at most 4300 decimal digits,
    [create_order] raises the insufficient-stock error carrying the name of
    that product, that stock and the quantity; the state is the one the
    earlier pairs left, and its order store is the one before the call.  On
    the seeded service, the pair (1,10) raises the error for "Laptop Gaming",
    available 5, requested 10, and the service, whose order store is empty,
    is unchanged. *)
Theorem C2_insufficient_stock :
  (forall (now : datetime) (customer_name : string) (s : OrderService.t)
          (pre post : list (Z * Z)) (product_id quantity : Z)
          (order_items : list OrderItem.t) (s1 : OrderService.t)
          (p : Product.t),
      OrderService.validate_items pre [] s = (Ok order_items, s1) ->
      InMemoryProductRepository.find_by_id (OrderService.product_repository s1)
        product_id = Some p ->
      Product.stock p < quantity ->
      Py.formattable (Product.stock p) = true ->
      Py.formattable quantity = true ->
      OrderService.create_order now customer_name
        (pre ++ (product_id, quantity) :: post) s
      = (Raise (ValueError
                  (InsufficientStock (Product.name p) (Product.stock p)
                     quantity)), s1)
      /\ OrderService.order_repository s1 = OrderService.order_repository s)
  /\ (forall now : datetime,
        OrderService.create_order now "Carlos Ruiz" [(1, 10)] seeded
        = (Raise (ValueError (InsufficientStock "Laptop Gaming" 5 10)), seeded)
        /\ InMemoryOrderRepository.find_all
             (OrderService.order_repository seeded) = []).
Proof.
  split.
  - intros now customer_name s pre post product_id quantity order_items s1 p
      Hpre Hp Hlt Hf1 Hf2.
    split.
    + apply create_order_raises.
      rewrite validate_items_app, Hpre, validate_items_cons.
      unfold InMemoryProductRepository.find_by_id in Hp. unfold catalog.
      rewrite Hp. apply Z.ltb_lt in Hlt. now rewrite Hlt, Hf1, Hf2.
    + pose proof (validate_items_frame pre [] s) as Hf.
      rewrite Hpre in Hf. apply Hf.
  - intros now. split; vm_compute; reflexivity.
Qed.

(** After the pair (2,2), the seeded catalog cannot serve (1,10). *)
Lemma C2_insufficient_stock_witness :
  fst (OrderService.create_order 0 "Carlos Ruiz" ([(2, 2)] ++ (1, 10) :: [])
         seeded)
  = Raise (ValueError (InsufficientStock "Laptop Gaming" 5 10)).
Proof.
  pose proof (proj1 C2_insufficient_stock 0 "Carlos Ruiz" seeded
                [(2, 2)] [] 1 10 [OrderItem.mk 2 2]
                (snd (OrderService.validate_items [(2, 2)] [] seeded))
                (Product.mk 1 "Laptop Gaming" (Py.literal 120000 100) 5)
                ltac:(vm_compute; reflexivity)
                ltac:(vm_compute; reflexivity)
                ltac:(simpl; lia)
                ltac:(vm_compute; reflexivity)
                ltac:(vm_compute; reflexivity)) as [H _].
  now rewrite H.
Defined.

(** C2 as stated fails: product 1 is in the seeded catalog with a stock, 5,
    below the quantity 10^4300, yet the call does not raise the
    insufficient-stock error: the quantity, of 4301 digits, cannot be
    formatted into the message, and the interpreter's [ValueError], which
    names no product, stock or quantity, is raised instead. *)
Lemma C2_counterexample :
  option_map Product.stock
    (InMemoryProductRepository.find_by_id
       (OrderService.product_repository seeded) 1) = Some 5
  /\ 5 < Py.int_str_bound
  /\ fst (OrderService.create_order 0 "Carlos Ruiz" [(1, Py.int_str_bound)] seeded)
     = Raise (ValueError ExceedsDigitLimit).
Proof. repeat (cbv zeta; apply conj); vm_compute; reflexivity. Qed.

(** A refused pair after pairs that go through. *)
Lemma create_order_refused now customer_name s pre pair post e :
  in_stock (catalog s) [] pre = true ->
  all_convertible pre = true ->
  all_printable (catalog s) [] pre = true ->
  (forall s1 acc,
      decremented (catalog s) pre (catalog s1) ->
      OrderService.validate_items (pair :: post) acc s1 = (Raise e, s1)) ->
  let r := OrderService.create_order now customer_name (pre ++ pair :: post) s
  in
  fst r = Raise e
  /\ same_but_catalog s (snd r)
  /\ decremented (catalog s) pre (catalog (snd r)).
Proof.
  intros Hin Hconv Hpr Hfail r.
  destruct (validate_items_passes (catalog s) pre [] [] s
              (decremented_nil _) Hin Hconv Hpr)
    as [s1 [Hloop [Hframe Hdec]]].
  simpl in Hdec.
  assert (Hrun : r = (Raise e, s1)).
  { apply create_order_raises.
    now rewrite validate_items_app, Hloop, (Hfail s1 _ Hdec). }
  rewrite Hrun. simpl. auto.
Qed.

(** C3, amended. When the pairs before the first pair that names an unknown
    product are all in stock and in the range of [float], the integers
    printed for them have at most 4300 decimal digits, and so has the
    unknown identifier, [create_order] raises the product-not-found error
    for that identifier; the order store, the notification service and the
    outbox are as before the call, and every product of the catalog is left
    with its stock less what the pairs before the failing one requested of
    it: those decrements stay, and the pairs after the failing one change
    nothing. *)
Theorem C3_product_not_found :
  forall (now : datetime) (customer_name : string) (s : OrderService.t)
         (pre post : list (Z * Z)) (product_id quantity : Z),
    in_stock (catalog s) [] pre = true ->
    all_convertible pre = true ->
    all_printable (catalog s) [] pre = true ->
    Dict.get product_id (catalog s) = None ->
    Py.formattable product_id = true ->
    let r :=
      OrderService.create_order now customer_name
        (pre ++ (product_id, quantity) :: post) s in
    fst r = Raise (ValueError (ProductNotFound product_id))
    /\ all_known (catalog s) pre = true
    /\ same_but_catalog s (snd r)
    /\ decremented (catalog s) pre (catalog (snd r)).
Proof.
  intros now customer_name s pre post product_id quantity Hin Hconv Hpr Hnone
    Hfmt r.
  destruct (create_order_refused now customer_name s pre
              (product_id, quantity) post
              (ValueError (ProductNotFound product_id)) Hin Hconv Hpr)
    as [H1 [H2 H3]].
  - intros s1 acc Hdec. eapply validate_items_unknown; eauto.
  - repeat split; auto; try apply H2. eapply in_stock_known; eauto.
Qed.

(** One laptop, then the unknown product 99, then a mouse: the laptop stays
    taken from the stock, the mouse does not leave it. *)
Lemma C3_product_not_found_witness :
  let r :=
    OrderService.create_order 0 "Ana" ([(1, 1)] ++ (99, 1) :: [(2, 1)]) seeded
  in
  fst r = Raise (ValueError (ProductNotFound 99))
  /\ option_map Product.stock (Dict.get 1 (catalog (snd r))) = Some 4
  /\ option_map Product.stock (Dict.get 2 (catalog (snd r))) = Some 20.
Proof.
  intros r.
  destruct (C3_product_not_found 0 "Ana" seeded [(1, 1)] [(2, 1)] 99 1
              eq_refl eq_refl ltac:(vm_compute; reflexivity) eq_refl
              ltac:(vm_compute; reflexivity)) as [H1 [_ [_ H2]]].
  fold r in H1, H2. split; [exact H1|].
  split; [rewrite (H2 1) | rewrite (H2 2)]; reflexivity.
Defined.

(** C3 as stated fails: the request names the unknown product 99, yet the
    call raises the insufficient-stock error of the pair before it; when
    the pair before it asks for a quantity out of the range of [float], the
    call raises [OverflowError]; and an unknown identifier of 4301 digits
    cannot be formatted into the message, so that the error raised does not
    identify it. *)
Lemma C3_counterexample :
  Dict.get 99 (catalog seeded) = None
  /\ fst (OrderService.create_order 0 "Ana" [(1, 10); (99, 1)] seeded)
     = Raise (ValueError (InsufficientStock "Laptop Gaming" 5 10))
  /\ fst (OrderService.create_order 0 "Ana" [(1, - 2 ^ 1024); (99, 1)] seeded)
     = Raise OverflowError
  /\ Dict.get Py.int_str_bound (catalog seeded) = None
  /\ fst (OrderService.create_order 0 "Ana" [(Py.int_str_bound, 1)] seeded)
     = Raise (ValueError ExceedsDigitLimit).
Proof. repeat (cbv zeta; apply conj); vm_compute; reflexivity. Qed.

(** ** A product requested more than once *)










(** ** Remarks on the float model *)

(** The prices of the seeded catalog and the total of the demonstration
    order, as binary64 values: mantissa and exponent of the floats nearest
    to 1200.00, 45.99, 89.99, 299.99 and 1591.97. *)
Fact seeded_prices :
  Py.literal 120000 100 = S754_finite false 5277655813324800 (-42)
  /\ Py.literal 4599 100 = S754_finite false 6472517089461535 (-47)
  /\ Py.literal 8999 100 = S754_finite false 6332483288547983 (-46)
  /\ Py.literal 29999 100 = S754_finite false 5277479891464356 (-44)
  /\ Py.literal 159197 100 = S754_finite false 7001558104282235 (-42).
Proof. repeat split; vm_compute; reflexivity. Qed.

(** The bound of the digit limit is the power of ten it stands for. *)
Fact int_str_bound_value : Py.int_str_bound = 10 ^ 4300.
Proof. vm_compute. reflexivity. Qed.

(** The range of [float] ends between 2^1024 - 2^970 - 1 and 2^1024 - 2^970,
    on both sides of zero. *)
Fact convertible_range :
  convertible (2 ^ 1024 - 2 ^ 970 - 1) = true
  /\ convertible (2 ^ 1024 - 2 ^ 970) = false
  /\ convertible (- (2 ^ 1024 - 2 ^ 970 - 1)) = true
  /\ convertible (- (2 ^ 1024 - 2 ^ 970)) = false.
Proof. repeat split; vm_compute; reflexivity. Qed.

(** The run of [main]: the first order is created with identifier 1, the
    second is refused with one laptop already gone, and the listing shows
    the first order alone. *)
Fact demonstration :
  let s1 := perform seeded
              (CreateOrder 0 "María González" [(1, 1); (2, 2); (4, 1)]) in
  let r2 := OrderService.create_order 1 "Carlos Ruiz" [(1, 10)] s1 in
  fst r2 = Raise (ValueError (InsufficientStock "Laptop Gaming" 4 10))
  /\ map Order.id (fst_ok (fst (OrderService.list_orders (snd r2))))
     = [Some 1].
Proof. split; vm_compute; reflexivity. Qed.

(** On the three subtotals of the demonstration order, the compensated sum
    of CPython 3.12 is the float that [sum] returns, 1591.97. *)
Fact compensated_sum_agrees :
  let a1 := Py.fmul (Py.literal 120000 100) (Py.round_int 1) in
  let a2 := Py.fmul (Py.literal 4599 100) (Py.round_int 2) in
  let a3 := Py.fmul (Py.literal 29999 100) (Py.round_int 1) in
  Py.sum [Ok (Py.Float a1); Ok (Py.Float a2); Ok (Py.Float a3)]
  = Ok (Py.Float (Py.literal 159197 100))
  /\ Py.sum_compensated (Py.fadd (Py.round_int 0) a1) (S754_zero false)
       [a2; a3]
     = Py.literal 159197 100.
Proof. split; vm_compute; reflexivity. Qed.

(** * Further properties *)

(** ** The outcome of [create_order] *)

Lemma create_order_outcome now customer_name items s :
  let r := OrderService.create_order now customer_name items s in
  decremented (catalog s) (fst (processed (catalog s) [] items))
    (catalog (snd r))
  /\ match snd (processed (catalog s) [] items) with
     | Some e => fst r = Raise e /\ same_but_catalog s (snd r)
     | None => exists order, fst r = Ok order
     end.
Proof.
  intros r. subst r.
  destruct (validate_items_outcome (catalog s) items [] [] s
              (decremented_nil _)) as [Hframe [Hdec Hres]].
  simpl in Hdec. rewrite create_order_catalog. split; [exact Hdec|].
  destruct (snd (processed (catalog s) [] items)) as [e|] eqn:He.
  - destruct (OrderService.validate_items items [] s) as [res s1] eqn:Hv.
    simpl in Hres, Hframe. subst res.
    rewrite (create_order_raises now customer_name items s e s1 Hv).
    now split.
  - apply processed_none in He. destruct He as [Hin [Hconv Hpr]].
    destruct (create_order_in_stock now customer_name items s Hin Hconv Hpr)
      as [order [total [s' [Hrun _]]]].
    exists order. now rewrite Hrun.
Qed.

(** X1. [create_order] returns an order exactly when every pair names a
    product of the catalog whose stock, less what the earlier pairs of the
    request take of it, covers the quantity, every quantity is in the range
    of [float], and the identifier, the quantity, the stock found and the
    stock written that the call prints for each pair have at most 4300
    decimal digits. *)
Theorem X1_create_order_returns_iff :
  forall (now : datetime) (customer_name : string) (items : list (Z * Z))
         (s : OrderService.t),
    (exists order,
        fst (OrderService.create_order now customer_name items s) = Ok order)
    <-> in_stock (catalog s) [] items = true
        /\ all_convertible items = true
        /\ all_printable (catalog s) [] items = true.
Proof.
  intros now customer_name items s.
  destruct (create_order_outcome now customer_name items s) as [_ H].
  rewrite <- processed_none.
  destruct (snd (processed (catalog s) [] items)) as [e|].
  - destruct H as [H _]. split; [|discriminate].
    intros [order Ho]. congruence.
  - split; auto.
Qed.

(** X2. When [create_order] raises, the request splits at the pair that
    failed; the pairs before it were in stock, convertible and printable;
    the order store, the notification service and the outbox are as before
    the call.  Either the exception is raised before the stock of the
    failing pair is written, and the catalog keeps the decrements of the
    pairs before it and nothing else: the product is unknown, and the
    exception is the product-not-found error, or the interpreter's
    [ValueError] when the identifier has more than 4300 digits; or the stock
    left by those pairs is below the quantity, and the exception is the
    insufficient-stock error with that stock, or the interpreter's
    [ValueError] when the stock or the quantity has more than 4300 digits;
    or the quantity is in stock but has more than 4300 digits, and the
    interpreter's [ValueError] is raised; or it is in stock and printable
    but out of the range of [float], and [OverflowError] is raised.  Or the
    pair is in stock and convertible, its stock is written, and the line
    that [update_stock] prints raises the interpreter's [ValueError] because
    the identifier, the old stock or the new one has more than 4300 digits:
    the catalog then keeps the decrement of the failing pair too. *)
Theorem X2_create_order_raises :
  forall (now : datetime) (customer_name : string) (items : list (Z * Z))
         (s : OrderService.t) (e : exn),
    let r := OrderService.create_order now customer_name items s in
    fst r = Raise e ->
    exists pre product_id quantity post,
      items = pre ++ (product_id, quantity) :: post
      /\ in_stock (catalog s) [] pre = true
      /\ all_convertible pre = true
      /\ all_printable (catalog s) [] pre = true
      /\ same_but_catalog s (snd r)
      /\ (decremented (catalog s) pre (catalog (snd r))
          /\ (Dict.get product_id (catalog s) = None
              /\ e = (if Py.formattable product_id
                      then ValueError (ProductNotFound product_id)
                      else ValueError ExceedsDigitLimit)
              \/ exists p,
                  Dict.get product_id (catalog s) = Some p
                  /\ let left_in_stock :=
                       Product.stock p - requested product_id pre in
                     (left_in_stock < quantity
                      /\ e = (if Py.formattable left_in_stock
                                 && Py.formattable quantity
                              then ValueError
                                     (InsufficientStock (Product.name p)
                                        left_in_stock quantity)
                              else ValueError ExceedsDigitLimit)
                      \/ quantity <= left_in_stock
                         /\ Py.formattable quantity = false
                         /\ e = ValueError ExceedsDigitLimit
                      \/ quantity <= left_in_stock
                         /\ Py.formattable quantity = true
                         /\ convertible quantity = false
                         /\ e = OverflowError))
          \/ decremented (catalog s) (pre ++ [(product_id, quantity)])
               (catalog (snd r))
             /\ exists p,
                 Dict.get product_id (catalog s) = Some p
                 /\ quantity <= Product.stock p - requested product_id pre
                 /\ convertible quantity = true
                 /\ printable (catalog s) pre (product_id, quantity) = false
                 /\ e = ValueError ExceedsDigitLimit).
Proof.
  intros now customer_name items s e r Hraise. subst r.
  destruct (create_order_outcome now customer_name items s) as [Hdec H].
  destruct (snd (processed (catalog s) [] items)) as [e'|] eqn:He;
    [|destruct H as [order Ho]; congruence].
  destruct H as [Hres Hframe].
  assert (e' = e) by congruence. subst e'.
  destruct (processed_some _ _ _ _ He)
    as [pre [[product_id quantity] [post [Hsplit [Hin [Hconv [Hpr Hcase]]]]]]].
  cbn [app] in Hcase.
  exists pre, product_id, quantity, post.
  do 5 (split; [assumption|]).
  unfold turn_of, printable in *. cbn [fst snd] in *.
  destruct (Dict.get product_id (catalog s)) as [p|].
  - rewrite Z.ltb_antisym in Hcase.
    destruct (quantity <=? Product.stock p - requested product_id pre) eqn:Hle;
      cbn [negb] in Hcase.
    + apply Z.leb_le in Hle.
      destruct (Py.formattable quantity) eqn:Hfq; cbn [negb] in Hcase.
      * destruct (convertible quantity) eqn:Hq; cbn [negb] in Hcase.
        -- destruct (Py.formattable product_id && _ && _) eqn:Hf3;
             destruct Hcase as [[Ht Hfst]|[Ht Hfst]]; try discriminate.
           right. rewrite Hfst in Hdec. split; [exact Hdec|].
           exists p. split; [reflexivity|]. split; [exact Hle|].
           split; [reflexivity|]. split; [|congruence].
           destruct (Py.formattable product_id),
             (Py.formattable (Product.stock p - requested product_id pre)),
             (Py.formattable
                (Product.stock p - requested product_id pre - quantity));
             cbn [andb] in *; congruence.
        -- destruct Hcase as [[Ht Hfst]|[Ht Hfst]]; try discriminate.
           left. rewrite Hfst in Hdec. split; [exact Hdec|].
           right. exists p. split; [reflexivity|].
           right. right. repeat split; auto. congruence.
      * destruct Hcase as [[Ht Hfst]|[Ht Hfst]]; try discriminate.
        left. rewrite Hfst in Hdec. split; [exact Hdec|].
        right. exists p. split; [reflexivity|].
        right. left. repeat split; auto. congruence.
    + apply Z.leb_gt in Hle.
      destruct Hcase as [[Ht Hfst]|[Ht Hfst]]; try discriminate.
      left. rewrite Hfst in Hdec. split; [exact Hdec|].
      right. exists p. split; [reflexivity|].
      left. split; [exact Hle | congruence].
  - destruct Hcase as [[Ht Hfst]|[Ht Hfst]]; try discriminate.
    left. rewrite Hfst in Hdec. split; [exact Hdec|].
    left. split; [reflexivity | congruence].
Qed.

(** A mouse, then a laptop quantity out of the range of [float]. *)
Lemma X2_create_order_raises_witness :
  exists pre product_id quantity post,
    [(2, 1); (1, - 2 ^ 1024)] = pre ++ (product_id, quantity) :: post
    /\ in_stock (catalog seeded) [] pre = true.
Proof.
  destruct (X2_create_order_raises 0 "Ana" [(2, 1); (1, - 2 ^ 1024)] seeded
              OverflowError)
    as [pre [i [q [post [H1 [H2 _]]]]]].
  - vm_compute. reflexivity.
  - exists pre, i, q, post. split; assumption.
Defined.

(** The run of a call that returns. *)
Lemma create_order_ok_run now customer_name items s :
  in_stock (catalog s) [] items = true ->
  all_convertible items = true ->
  all_printable (catalog s) [] items = true ->
  let n := InMemoryOrderRepository._next_id (OrderService.order_repository s) in
  let order :=
    Order.mk (Some n) customer_name (map item_of items) "pending" (Some now) in
  exists s1 total printed,
    same_but_catalog s s1
    /\ decremented (catalog s) items (catalog s1)
    /\ Order.total (catalog s1) order = Ok total
    /\ INotificationService.send_order_confirmation
         (OrderService.notification_service s) (catalog s1) order
       = Ok (printed, true)
    /\ OrderService.create_order now customer_name items s
       = (Ok order,
          {| OrderService.order_repository :=
               {| InMemoryOrderRepository._orders :=
                    Dict.set n order
                      (InMemoryOrderRepository._orders
                         (OrderService.order_repository s));
                  InMemoryOrderRepository._next_id := n + 1 |};
             OrderService.product_repository :=
               OrderService.product_repository s1;
             OrderService.notification_service :=
               OrderService.notification_service s;
             OrderService.outbox := OrderService.outbox s ++ [printed] |}).
Proof.
  intros Hin Hconv Hpr n order.
  destruct (validate_items_passes (catalog s) items [] [] s
              (decremented_nil _) Hin Hconv Hpr)
    as [s1 [Hloop [Hframe Hdec]]].
  simpl in Hloop, Hdec.
  pose proof (in_stock_known _ _ _ Hin) as Hknown.
  destruct (sum_from_floats (map (price_times_quantity (catalog s)) items)
              (Py.Int 0) (price_times_quantity_floats _ _ Hknown Hconv)
              (or_introl eq_refl)) as [total Htotal].
  destruct Hframe as [Hrepo [Hnot Hout]].
  assert (Hsaved : InMemoryOrderRepository.save
                     (OrderService.order_repository s1)
                     (Order.new now None customer_name
                        (Some (map item_of items)))
                   = ({| InMemoryOrderRepository._orders :=
                           Dict.set n order
                             (InMemoryOrderRepository._orders
                                (OrderService.order_repository s));
                         InMemoryOrderRepository._next_id := n + 1 |}, order)).
  { rewrite Hrepo. reflexivity. }
  assert (Ht : Order.total (catalog s1) order = Ok total).
  { unfold Order.total. simpl.
    rewrite (subtotals_at_start _ _ _ _ Hdec Hknown). exact Htotal. }
  destruct (create_order_returns now customer_name items s _ s1 total Hloop)
    as [printed [Hsend Hrun]].
  { rewrite Hsaved. exact Ht. }
  rewrite Hsaved in Hsend, Hrun. simpl in Hsend, Hrun.
  rewrite Hnot in Hsend, Hrun. rewrite Hout in Hrun.
  exists s1, total, printed. repeat split; auto.
Qed.

(** X3. An order that [create_order] returns carries the identifier the
    counter held, the customer name, one item per pair in request order, the
    status "pending" and the clock reading; [get_order] on its identifier
    then returns it; the counter has moved on by one and the orders stored
    under other identifiers are as before; one confirmation has been added
    to the outbox, showing the customer name, that identifier and the total
    of the order. *)
Theorem X3_created_order_is_stored :
  forall (now : datetime) (customer_name : string) (items : list (Z * Z))
         (s : OrderService.t) (order : Order.t),
    let r := OrderService.create_order now customer_name items s in
    let n := InMemoryOrderRepository._next_id (OrderService.order_repository s)
    in
    fst r = Ok order ->
    order
    = Order.mk (Some n) customer_name (map item_of items) "pending" (Some now)
    /\ OrderService.get_order n (snd r) = (Ok order, snd r)
    /\ InMemoryOrderRepository._next_id (OrderService.order_repository (snd r))
       = n + 1
    /\ (forall j,
          j <> n ->
          InMemoryOrderRepository.find_by_id
            (OrderService.order_repository (snd r)) j
          = InMemoryOrderRepository.find_by_id
              (OrderService.order_repository s) j)
    /\ exists total printed,
        Order.total (catalog (snd r)) order = Ok total
        /\ OrderService.outbox (snd r) = OrderService.outbox s ++ [printed]
        /\ shown printed = (customer_name, Some n, total).
Proof.
  intros now customer_name items s order r n Hok. subst r.
  destruct (create_order_outcome now customer_name items s) as [_ H].
  destruct (snd (processed (catalog s) [] items)) as [e|] eqn:He;
    [destruct H; congruence|].
  apply processed_none in He. destruct He as [Hin [Hconv Hpr]].
  destruct (create_order_ok_run now customer_name items s Hin Hconv Hpr)
    as [s1 [total [printed [_ [_ [Ht [Hsend Hrun]]]]]]].
  fold n in Ht, Hsend, Hrun.
  rewrite Hrun in Hok |- *. simpl in Hok. injection Hok as <-.
  cbn [fst snd]. split; [reflexivity|].
  split; [|split; [reflexivity|split]].
  - rewrite get_order_run. unfold InMemoryOrderRepository.find_by_id. simpl.
    now rewrite get_set_eq.
  - intros j Hj. unfold InMemoryOrderRepository.find_by_id. simpl.
    now apply get_set_ne.
  - exists total, printed. split; [exact Ht|]. split; [reflexivity|].
    unfold INotificationService.send_order_confirmation in Hsend.
    rewrite Ht in Hsend.
    destruct (OrderService.notification_service s); simpl in Hsend;
      injection Hsend as <-; reflexivity.
Qed.

(** The demonstration order, created on the seeded service. *)
Lemma X3_created_order_is_stored_witness :
  let r := OrderService.create_order 0 "María González"
             [(1, 1); (2, 2); (4, 1)] seeded in
  exists order, OrderService.get_order 1 (snd r) = (Ok order, snd r).
Proof.
  intros r.
  destruct (X3_created_order_is_stored 0 "María González"
              [(1, 1); (2, 2); (4, 1)] seeded
              (Order.mk (Some 1) "María González"
                 (map item_of [(1, 1); (2, 2); (4, 1)]) "pending" (Some 0))
              ltac:(vm_compute; reflexivity)) as [_ [H _]].
  eexists. exact H.
Defined.

(** ** The order store of the service *)

Section DictOrder.
Variable V : Type.
Implicit Types (d : Dict.t V) (k : Z) (v : V).

Lemma get_not_in_keys d k : ~ In k (Dict.keys d) -> Dict.get k d = None.
Proof.
  induction d as [|[k' v'] d IH]; simpl; [reflexivity|].
  intros Hnot. destruct (k =? k') eqn:E.
  - apply Z.eqb_eq in E. subst. tauto.
  - apply IH. tauto.
Qed.

Lemma set_absent d k v : Dict.get k d = None -> Dict.set k v d = d ++ [(k, v)].
Proof.
  induction d as [|[k' v'] d IH]; simpl; [reflexivity|].
  destruct (k =? k'); [discriminate|]. intros H. now rewrite IH.
Qed.

Lemma get_in_nodup d k v :
  NoDup (Dict.keys d) -> In (k, v) d -> Dict.get k d = Some v.
Proof.
  induction d as [|[k' v'] d IH]; simpl; [tauto|].
  intros Hnd [Heq | Hin].
  - injection Heq as -> ->. now rewrite Z.eqb_refl.
  - inversion Hnd as [|? ? Hnot Hnd']; subst.
    destruct (k =? k') eqn:E.
    + apply Z.eqb_eq in E. subst k'. elim Hnot.
      change k with (fst (k, v)). now apply in_map.
    + now apply IH.
Qed.

End DictOrder.

Lemma sequential_fresh r :
  sequential r ->
  Dict.get (InMemoryOrderRepository._next_id r)
    (InMemoryOrderRepository._orders r) = None.
Proof.
  intros [Hkeys [Hnext _]]. apply get_not_in_keys. rewrite Hkeys, Hnext.
  rewrite in_map_iff. intros [m [Hm Hin]]. apply in_seq in Hin. lia.
Qed.

Lemma NoDup_map_of_nat (l : list nat) : NoDup l -> NoDup (map Z.of_nat l).
Proof.
  induction 1 as [|x l Hnot Hnd IH]; simpl; constructor; auto.
  rewrite in_map_iff. intros [y [Hy Hin]].
  apply Nat2Z.inj in Hy. now subst.
Qed.

Lemma sequential_nodup r :
  sequential r -> NoDup (Dict.keys (InMemoryOrderRepository._orders r)).
Proof.
  intros [Hkeys _]. rewrite Hkeys. apply NoDup_map_of_nat, seq_NoDup.
Qed.

Lemma sequential_save r order :
  sequential r ->
  Order.id order = None ->
  sequential (fst (InMemoryOrderRepository.save r order)).
Proof.
  intros Hseq Hid. pose proof (sequential_fresh r Hseq) as Hfresh.
  rewrite (save_without_id r _ Hid). cbn [fst].
  destruct Hseq as [Hkeys [Hnext Hall]].
  unfold sequential. cbn [InMemoryOrderRepository._orders
                            InMemoryOrderRepository._next_id].
  rewrite (set_absent _ _ _ _ Hfresh).
  unfold Dict.keys in *. rewrite map_app, length_app, Hkeys. simpl.
  rewrite Nat.add_1_r, seq_S, map_app. simpl.
  repeat split.
  - do 2 f_equal. lia.
  - lia.
  - apply Forall_app. split; [exact Hall|]. now repeat constructor.
Qed.

(** What a call of [create_order] does to the order store. *)
Lemma create_order_store now customer_name items s :
  let r := OrderService.create_order now customer_name items s in
  OrderService.order_repository (snd r)
  = match fst r with
    | Ok _ =>
        fst (InMemoryOrderRepository.save (OrderService.order_repository s)
               (Order.new now None customer_name (Some (map item_of items))))
    | Raise _ => OrderService.order_repository s
    end.
Proof.
  intros r. subst r.
  destruct (create_order_outcome now customer_name items s) as [_ H].
  destruct (snd (processed (catalog s) [] items)) as [e|] eqn:He.
  - destruct H as [Hres [Hrepo _]]. now rewrite Hres.
  - apply processed_none in He. destruct He as [Hin [Hconv Hpr]].
    destruct (create_order_ok_run now customer_name items s Hin Hconv Hpr)
      as [s1 [total [printed [_ [_ [_ [_ Hrun]]]]]]].
    rewrite Hrun. reflexivity.
Qed.

Lemma perform_store s c :
  OrderService.order_repository (perform s c)
  = OrderService.order_repository s
  \/ exists order,
      Order.id order = None
      /\ OrderService.order_repository (perform s c)
         = fst (InMemoryOrderRepository.save
                  (OrderService.order_repository s) order).
Proof.
  destruct c as [now customer_name items|order_id| |]; simpl.
  - rewrite create_order_store.
    destruct (fst (OrderService.create_order now customer_name items s)).
    + right. eexists. split; [|reflexivity]. reflexivity.
    + now left.
  - left. now rewrite get_order_run.
  - now left.
  - now left.
Qed.

Lemma sequential_perform_all calls : forall s,
  sequential (OrderService.order_repository s) ->
  sequential (OrderService.order_repository (perform_all s calls)).
Proof.
  unfold perform_all.
  induction calls as [|c calls IH]; intros s Hseq; [exact Hseq|].
  simpl. apply IH.
  destruct (perform_store s c) as [-> | [order [Hid ->]]]; auto.
  now apply sequential_save.
Qed.

Lemma sequential_init : sequential InMemoryOrderRepository.__init__.
Proof. repeat split. constructor. Qed.

(** X4. In a service whose order store is as the service builds it, a fresh
    one for instance, after any sequence of calls [list_orders] returns the
    stored orders in creation order, their identifiers being 1, 2, ... up to
    their number, and [get_order] on the identifier of any listed order
    returns that order. *)
Theorem X4_list_orders_in_creation_order :
  forall (s : OrderService.t) (calls : list call),
    sequential (OrderService.order_repository s) ->
    let s' := perform_all s calls in
    let listed := fst_ok (fst (OrderService.list_orders s')) in
    snd (OrderService.list_orders s') = s'
    /\ map Order.id listed
       = map (fun n => Some (Z.of_nat n)) (seq 1 (List.length listed))
    /\ forall order,
        In order listed ->
        exists k,
          Order.id order = Some k
          /\ OrderService.get_order k s' = (Ok order, s').
Proof.
  intros s calls Hseq s' listed.
  pose proof (sequential_perform_all calls s Hseq) as Hseq'. fold s' in Hseq'.
  pose proof (sequential_nodup _ Hseq') as Hnd.
  destruct Hseq' as [Hkeys [_ Hall]].
  subst listed. cbn [OrderService.list_orders OrderService.orders_find_all
                       fst snd fst_ok].
  unfold InMemoryOrderRepository.find_all, Dict.values, Dict.keys in *.
  split; [reflexivity|]. split.
  - rewrite length_map, <- (map_map Z.of_nat Some), <- Hkeys, !map_map.
    apply map_ext_in. intros entry Hin.
    rewrite Forall_forall in Hall. now apply Hall.
  - intros order Hin. apply in_map_iff in Hin.
    destruct Hin as [[k o] [Ho Hin]]. simpl in Ho. subst o.
    exists k. rewrite Forall_forall in Hall. split; [now apply (Hall _ Hin)|].
    rewrite get_order_run. unfold InMemoryOrderRepository.find_by_id.
    now rewrite (get_in_nodup _ _ _ _ Hnd Hin).
Qed.

(** The calls of the demonstration on the seeded service. *)
Lemma X4_list_orders_in_creation_order_witness :
  let s' :=
    perform_all seeded
      [ CreateOrder 0 "María González" [(1, 1); (2, 2); (4, 1)];
        CreateOrder 1 "Carlos Ruiz" [(1, 10)];
        CreateOrder 2 "Ana" [(3, 1)] ] in
  let listed := fst_ok (fst (OrderService.list_orders s')) in
  map Order.id listed
  = map (fun n => Some (Z.of_nat n)) (seq 1 (List.length listed)).
Proof.
  intros s' listed.
  apply (X4_list_orders_in_creation_order seeded
           [ CreateOrder 0 "María González" [(1, 1); (2, 2); (4, 1)];
             CreateOrder 1 "Carlos Ruiz" [(1, 10)];
             CreateOrder 2 "Ana" [(3, 1)] ]).
  repeat split. constructor.
Defined.

Lemma retained_perform s c i order :
  sequential (OrderService.order_repository s) ->
  InMemoryOrderRepository.find_by_id (OrderService.order_repository s) i
  = Some order ->
  InMemoryOrderRepository.find_by_id
    (OrderService.order_repository (perform s c)) i = Some order.
Proof.
  intros Hseq Hfind.
  destruct (perform_store s c) as [-> | [fresh [Hid ->]]]; auto.
  rewrite (save_without_id _ _ Hid). cbn [fst].
  unfold InMemoryOrderRepository.find_by_id in *. simpl.
  rewrite get_set_ne; auto.
  intros ->. rewrite (sequential_fresh _ Hseq) in Hfind. discriminate.
Qed.

(** X5. In a service whose order store is as the service builds it, an order
    found under an identifier is found there, unchanged, after any sequence
    of calls: the service never overwrites or removes a stored order. *)
Theorem X5_stored_orders_are_kept :
  forall (s : OrderService.t) (calls : list call) (i : Z) (order : Order.t),
    sequential (OrderService.order_repository s) ->
    InMemoryOrderRepository.find_by_id (OrderService.order_repository s) i
    = Some order ->
    OrderService.get_order i (perform_all s calls)
    = (Ok order, perform_all s calls).
Proof.
  intros s calls i order Hseq Hfind. rewrite get_order_run.
  enough (H : InMemoryOrderRepository.find_by_id
                (OrderService.order_repository (perform_all s calls)) i
              = Some order) by now rewrite H.
  revert s Hseq Hfind. unfold perform_all.
  induction calls as [|c calls IH]; intros s Hseq Hfind; [exact Hfind|].
  simpl. apply IH.
  - apply (sequential_perform_all [c] s Hseq).
  - now apply retained_perform.
Qed.

(** The first order of the demonstration is still there after two more. *)
Lemma X5_stored_orders_are_kept_witness :
  let s := perform seeded
             (CreateOrder 0 "María González" [(1, 1); (2, 2); (4, 1)]) in
  let calls := [CreateOrder 1 "Carlos Ruiz" [(1, 10)];
                CreateOrder 2 "Ana" [(3, 1)]] in
  exists order,
    OrderService.get_order 1 (perform_all s calls)
    = (Ok order, perform_all s calls).
Proof.
  intros s calls. eexists.
  apply (X5_stored_orders_are_kept s calls 1).
  - apply (sequential_perform_all
             [CreateOrder 0 "María González" [(1, 1); (2, 2); (4, 1)]] seeded).
    apply sequential_init.
  - vm_compute. reflexivity.
Defined.

(** ** The catalog of the service *)

Lemma skeleton_set_stock (heap : products) k p new_stock :
  Dict.get k heap = Some p ->
  skeleton (Dict.set k (Product.set_stock p new_stock) heap) = skeleton heap.
Proof.
  induction heap as [|[k' p'] heap IH]; simpl; [discriminate|].
  destruct (k =? k') eqn:E.
  - apply Z.eqb_eq in E. subst k'. intros [= ->]. reflexivity.
  - intros H. simpl. now rewrite (IH H).
Qed.

Lemma skeleton_update_stock r product_id new_stock :
  skeleton (InMemoryProductRepository._products
              (InMemoryProductRepository.update_stock r product_id new_stock))
  = skeleton (InMemoryProductRepository._products r).
Proof.
  unfold InMemoryProductRepository.update_stock.
  destruct (Dict.get product_id _) as [p|] eqn:Hp; [|reflexivity].
  simpl. now apply skeleton_set_stock.
Qed.

Lemma skeleton_validate_items items : forall acc s,
  skeleton (catalog (snd (OrderService.validate_items items acc s)))
  = skeleton (catalog s).
Proof.
  induction items as [|[product_id quantity] items IH]; intros acc s;
    [reflexivity|].
  rewrite validate_items_cons.
  destruct (Dict.get product_id (catalog s)) as [product|];
    [|now destruct (Py.formattable product_id)].
  destruct (Product.stock product <? quantity); [now destruct (_ && _)|].
  destruct (Py.formattable quantity); [|reflexivity].
  destruct (OrderItem.subtotal _ _); [|reflexivity].
  cbv zeta. destruct (_ && _); [rewrite IH|]; apply skeleton_update_stock.
Qed.

Lemma skeleton_perform_all calls : forall s,
  skeleton (catalog (perform_all s calls)) = skeleton (catalog s).
Proof.
  unfold perform_all.
  induction calls as [|c calls IH]; intros s; [reflexivity|].
  simpl. rewrite IH.
  destruct c as [now customer_name items|order_id| |]; simpl.
  - rewrite create_order_catalog. apply skeleton_validate_items.
  - now rewrite get_order_run.
  - reflexivity.
  - reflexivity.
Qed.

Lemma skeleton_get (heap : products) : forall heap' k,
  skeleton heap' = skeleton heap ->
  option_map identity (Dict.get k heap')
  = option_map identity (Dict.get k heap).
Proof.
  induction heap as [|[k0 p0] heap IH]; intros [|[k1 p1] heap'] k;
    simpl; try discriminate; [reflexivity|].
  intros H.
  change ((k1, identity p1) :: skeleton heap'
          = (k0, identity p0) :: skeleton heap) in H.
  assert (Hk : k1 = k0) by congruence.
  assert (Hid : identity p1 = identity p0) by congruence.
  assert (Hrest : skeleton heap' = skeleton heap) by congruence.
  subst k1. destruct (k =? k0).
  - simpl. now rewrite Hid.
  - now apply IH.
Qed.

(** X6. After any sequence of calls, [get_available_products] lists the same
    products in the same order, with the identifier, name and price they had:
    the calls change stocks and nothing else in the catalog, add no product
    and remove none; the listing itself leaves the service as it is. *)
Theorem X6_catalog_identities_are_kept :
  forall (s : OrderService.t) (calls : list call),
    let s' := perform_all s calls in
    let listed t := fst_ok (fst (OrderService.get_available_products t)) in
    snd (OrderService.get_available_products s') = s'
    /\ map identity (listed s') = map identity (listed s)
    /\ Dict.keys (catalog s') = Dict.keys (catalog s)
    /\ forall product_id,
        option_map identity (Dict.get product_id (catalog s'))
        = option_map identity (Dict.get product_id (catalog s)).
Proof.
  intros s calls s' listed.
  pose proof (skeleton_perform_all calls s) as Hsk. fold s' in Hsk.
  split; [reflexivity|]. split; [|split].
  - subst listed. cbn [OrderService.get_available_products
                         OrderService.products_find_all fst snd fst_ok].
    unfold InMemoryProductRepository.find_all, Dict.values.
    fold (catalog s') (catalog s).
    apply (f_equal (map snd)) in Hsk. unfold skeleton in Hsk.
    rewrite !map_map in Hsk. rewrite !map_map. exact Hsk.
  - apply (f_equal (map fst)) in Hsk. unfold skeleton in Hsk.
    rewrite !map_map in Hsk. exact Hsk.
  - intros product_id. now apply skeleton_get.
Qed.

Lemma subtotal_same_prices heap heap' item :
  skeleton heap' = skeleton heap ->
  OrderItem.subtotal heap' item = OrderItem.subtotal heap item.
Proof.
  intros Hsk. unfold OrderItem.subtotal.
  pose proof (skeleton_get heap heap' (OrderItem.product item) Hsk) as H.
  destruct (Dict.get _ heap') as [p'|], (Dict.get _ heap) as [p|];
    simpl in H; try discriminate; [|reflexivity].
  unfold identity in H. injection H as _ _ Hprice. now rewrite Hprice.
Qed.

(** X7. The total of an order, read at any time, is the one read before:
    whatever calls are made in between, every subtotal, reached through the
    item's reference to the catalog product, comes out the same, an
    exception included. *)
Theorem X7_total_does_not_drift :
  forall (s : OrderService.t) (calls : list call) (order : Order.t),
    Order.total (catalog (perform_all s calls)) order
    = Order.total (catalog s) order.
Proof.
  intros s calls order. unfold Order.total. f_equal.
  apply map_ext. intros item.
  apply subtotal_same_prices, skeleton_perform_all.
Qed.

(** ** The stock of a product, written twice *)

Lemma set_comm (V : Type) (d : Dict.t V) k1 k2 v1 v2 w1 w2 :
  k1 <> k2 ->
  Dict.get k1 d = Some w1 ->
  Dict.get k2 d = Some w2 ->
  Dict.set k1 v1 (Dict.set k2 v2 d) = Dict.set k2 v2 (Dict.set k1 v1 d).
Proof.
  intros Hne. induction d as [|[k v] d IH]; simpl; [discriminate|].
  destruct (Z.eqb_spec k1 k) as [E1|N1], (Z.eqb_spec k2 k) as [E2|N2];
    simpl; intros H1 H2.
  - congruence.
  - subst k. rewrite Z.eqb_refl.
    destruct (Z.eqb_spec k2 k1); [congruence | reflexivity].
  - subst k. rewrite Z.eqb_refl.
    destruct (Z.eqb_spec k1 k2); [congruence | reflexivity].
  - destruct (Z.eqb_spec k1 k); [congruence|].
    destruct (Z.eqb_spec k2 k); [congruence|].
    now rewrite IH.
Qed.

(** X8. Two [update_stock] calls on one product leave what the second alone
    leaves, and two calls on different products leave the same repository
    in either order. *)
Theorem X8_update_stock_composes :
  forall (r : InMemoryProductRepository.t) (i j a b : Z),
    InMemoryProductRepository.update_stock
      (InMemoryProductRepository.update_stock r i a) i b
    = InMemoryProductRepository.update_stock r i b
    /\ (i <> j ->
        InMemoryProductRepository.update_stock
          (InMemoryProductRepository.update_stock r i a) j b
        = InMemoryProductRepository.update_stock
            (InMemoryProductRepository.update_stock r j b) i a).
Proof.
  intros r i j a b. split.
  - unfold InMemoryProductRepository.update_stock.
    destruct (Dict.get i (InMemoryProductRepository._products r)) as [p|]
      eqn:Hp; simpl; [|now rewrite Hp].
    now rewrite get_set_eq, set_set.
  - intros Hne.
    unfold InMemoryProductRepository.update_stock.
    destruct (Dict.get i (InMemoryProductRepository._products r)) as [p|]
      eqn:Hi;
      destruct (Dict.get j (InMemoryProductRepository._products r)) as [q|]
        eqn:Hj; simpl;
      rewrite ?get_set_ne, ?Hi, ?Hj by congruence; simpl; try reflexivity.
    f_equal. symmetry. eapply set_comm; eauto.
Qed.

(** Stock 7 for product 1 and 9 for product 2, in both orders. *)
Lemma X8_update_stock_composes_witness :
  InMemoryProductRepository.update_stock
    (InMemoryProductRepository.update_stock
       InMemoryProductRepository.__init__ 1 7) 2 9
  = InMemoryProductRepository.update_stock
      (InMemoryProductRepository.update_stock
         InMemoryProductRepository.__init__ 2 9) 1 7.
Proof.
  apply (X8_update_stock_composes InMemoryProductRepository.__init__ 1 2 7 9).
  lia.
Defined.

(** ** The counter of the order store *)

(** X9. [save] does not look whether the identifier it assigns is in use:
    when an order was saved with the identifier that the counter holds, the
    next order arriving without an identifier is given that identifier and
    takes the place of the former, the store listing as many orders as
    before. *)
Theorem X9_assigned_id_may_overwrite :
  forall (r : InMemoryOrderRepository.t) (held arriving : Order.t),
    Order.id held = Some (InMemoryOrderRepository._next_id r) ->
    Order.id arriving = None ->
    let r1 := fst (InMemoryOrderRepository.save r held) in
    let r2 := fst (InMemoryOrderRepository.save r1 arriving) in
    let saved := snd (InMemoryOrderRepository.save r1 arriving) in
    InMemoryOrderRepository.find_by_id r1 (InMemoryOrderRepository._next_id r)
    = Some held
    /\ saved = Order.set_id arriving (InMemoryOrderRepository._next_id r)
    /\ InMemoryOrderRepository.find_by_id r2
         (InMemoryOrderRepository._next_id r) = Some saved
    /\ List.length (InMemoryOrderRepository.find_all r2)
       = List.length (InMemoryOrderRepository.find_all r1).
Proof.
  intros r held arriving Hheld Harr r1 r2 saved. subst r1 r2 saved.
  rewrite (save_with_id r _ _ Hheld). cbn [fst].
  rewrite (save_without_id _ _ Harr). cbn [fst snd].
  unfold InMemoryOrderRepository.find_by_id, InMemoryOrderRepository.find_all.
  cbn [InMemoryOrderRepository._orders InMemoryOrderRepository._next_id].
  repeat split.
  - apply get_set_eq.
  - apply get_set_eq.
  - unfold Dict.values. rewrite !length_map.
    rewrite <- (length_map fst (Dict.set _ _ (Dict.set _ _ _))).
    fold (Dict.keys
            (Dict.set (InMemoryOrderRepository._next_id r)
               (Order.set_id arriving (InMemoryOrderRepository._next_id r))
               (Dict.set (InMemoryOrderRepository._next_id r) held
                  (InMemoryOrderRepository._orders r)))).
    rewrite (keys_set_present _ _ _ _ held (get_set_eq _ _ _ _)).
    unfold Dict.keys. now rewrite length_map.
Qed.

(** An order with identifier 1 saved in a fresh store, then one without. *)
Lemma X9_assigned_id_may_overwrite_witness :
  let held := Order.mk (Some 1) "Ana" [] "pending" (Some 0) in
  let arriving := Order.mk None "Luis" [] "pending" (Some 1) in
  let r1 := fst (InMemoryOrderRepository.save
                   InMemoryOrderRepository.__init__ held) in
  InMemoryOrderRepository.find_by_id
    (fst (InMemoryOrderRepository.save r1 arriving)) 1
  = Some (snd (InMemoryOrderRepository.save r1 arriving)).
Proof.
  intros held arriving r1.
  destruct (X9_assigned_id_may_overwrite InMemoryOrderRepository.__init__
              held arriving eq_refl eq_refl) as [_ [_ [H _]]].
  exact H.
Defined.

(** ** The injected notification service *)

Lemma validate_items_with_notifier n items : forall acc s,
  OrderService.validate_items items acc (with_notifier n s)
  = (fst (OrderService.validate_items items acc s),
     with_notifier n (snd (OrderService.validate_items items acc s))).
Proof.
  induction items as [|[product_id quantity] items IH]; intros acc s;
    [reflexivity|].
  rewrite !validate_items_cons.
  change (catalog (with_notifier n s)) with (catalog s).
  destruct (Dict.get product_id (catalog s)) as [product|];
    [|now destruct (Py.formattable product_id)].
  destruct (Product.stock product <? quantity); [now destruct (_ && _)|].
  destruct (Py.formattable quantity); [|reflexivity].
  destruct (OrderItem.subtotal _ _); [|reflexivity].
  cbv zeta. destruct (_ && _); [|reflexivity].
  apply (IH _ (snd (OrderService.products_update_stock product_id
                      (Product.stock product - quantity) s))).
Qed.

Lemma create_order_unfold now customer_name items s :
  OrderService.create_order now customer_name items s
  = match OrderService.validate_items items [] s with
    | (Raise e, s1) => (Raise e, s1)
    | (Ok order_items, s1) =>
        let saved :=
          InMemoryOrderRepository.save (OrderService.order_repository s1)
            (Order.new now None customer_name (Some order_items)) in
        match
          INotificationService.send_order_confirmation
            (OrderService.notification_service s1) (catalog s1) (snd saved)
        with
        | Ok (printed, _) =>
            (Ok (snd saved),
             {| OrderService.order_repository := fst saved;
                OrderService.product_repository :=
                  OrderService.product_repository s1;
                OrderService.notification_service :=
                  OrderService.notification_service s1;
                OrderService.outbox := OrderService.outbox s1 ++ [printed] |})
        | Raise e =>
            (Raise e,
             {| OrderService.order_repository := fst saved;
                OrderService.product_repository :=
                  OrderService.product_repository s1;
                OrderService.notification_service :=
                  OrderService.notification_service s1;
                OrderService.outbox := OrderService.outbox s1 |})
        end
    end.
Proof.
  unfold OrderService.create_order, OrderService.bind at 1.
  destruct (OrderService.validate_items items [] s) as [[order_items|e] s1];
    [|reflexivity].
  unfold OrderService.bind at 1, OrderService.orders_save.
  destruct (InMemoryOrderRepository.save _ _) as [repository order].
  unfold OrderService.bind, OrderService.notify, OrderService.ret. simpl.
  fold (catalog s1).
  destruct (INotificationService.send_order_confirmation _ _ _) as [[? ?]|];
    reflexivity.
Qed.

(** X10. The notification service injected decides what a confirmation looks
    like and nothing else: with either service in place of the one of the
    state, [create_order] returns the same order or raises the same
    exception, leaves the same order store and the same catalog, and the
    confirmations in the outbox show the same recipients, identifiers and
    totals. *)
Theorem X10_notifier_is_interchangeable :
  forall (n : INotificationService.t) (now : datetime)
         (customer_name : string) (items : list (Z * Z)) (s : OrderService.t),
    let r := OrderService.create_order now customer_name items s in
    let r' :=
      OrderService.create_order now customer_name items (with_notifier n s) in
    fst r' = fst r
    /\ OrderService.order_repository (snd r')
       = OrderService.order_repository (snd r)
    /\ OrderService.product_repository (snd r')
       = OrderService.product_repository (snd r)
    /\ map shown (OrderService.outbox (snd r'))
       = map shown (OrderService.outbox (snd r)).
Proof.
  intros n now customer_name items s r r'. subst r r'.
  rewrite !create_order_unfold, validate_items_with_notifier.
  destruct (OrderService.validate_items items [] s) as [[order_items|e] s1];
    cbn [fst snd]; [|now repeat split].
  change (catalog (with_notifier n s1)) with (catalog s1).
  cbn [with_notifier OrderService.order_repository
         OrderService.notification_service OrderService.product_repository
         OrderService.outbox].
  destruct (InMemoryOrderRepository.save _ _) as [repository order].
  cbn [fst snd].
  unfold INotificationService.send_order_confirmation.
  destruct n, (OrderService.notification_service s1),
    (Order.total (catalog s1) order); cbn; rewrite ?map_app;
    now repeat split.
Qed.

(** ** The total of an order *)

Lemma sum_from_subtotals heap items : forall acc,
  acc = Py.Int 0 \/ (exists f, acc = Py.Float f) ->
  forallb (fun item => Dict.contains (OrderItem.product item) heap) items
  = true ->
  if forallb (fun item => convertible (OrderItem.quantity item)) items
  then exists total,
      Py.sum_from acc (map (OrderItem.subtotal heap) items) = Ok total
      /\ (items = [] -> total = acc)
      /\ (items <> [] -> exists f, total = Py.Float f)
  else Py.sum_from acc (map (OrderItem.subtotal heap) items)
       = Raise OverflowError.
Proof.
  induction items as [|[product_id quantity] items IH]; intros acc Hacc Hres.
  - simpl. exists acc. repeat split; auto. congruence.
  - cbn [forallb] in Hres |- *. apply andb_true_iff in Hres.
    destruct Hres as [Hp Hres]. unfold Dict.contains in Hp. simpl in Hp.
    destruct (Dict.get product_id heap) as [p|] eqn:Hget; [|discriminate].
    cbn [map Py.sum_from OrderItem.quantity].
    destruct (convertible quantity) eqn:Hq; cbn [andb].
    + rewrite (subtotal_convertible _ _ _ _ Hget Hq). cbn [exc_bind].
      assert (Hadd : exists g,
                 Py.add acc
                   (Py.Float (Py.fmul (Product.price p)
                                (Py.round_int quantity))) = Ok (Py.Float g)).
      { destruct Hacc as [->|[f ->]]; cbn [Py.add].
        - rewrite float_of_zero. cbn [exc_bind]. eauto.
        - eauto. }
      destruct Hadd as [g ->]. cbn [exc_bind].
      specialize (IH (Py.Float g) (or_intror (ex_intro _ g eq_refl)) Hres).
      destruct (forallb _ items); [|exact IH].
      destruct IH as [total [Hsum [Hnil Hcons]]].
      exists total. split; [exact Hsum|]. split; [discriminate|].
      intros _. destruct items as [|item items].
      * exists g. now apply Hnil.
      * apply Hcons. discriminate.
    + now rewrite (subtotal_not_convertible _ _ _ _ Hget Hq).
Qed.

(** X11. For an order whose items refer to products of the catalog, [total]
    is the integer 0 when the order has no item and a float when it has
    some, provided every quantity is in the range of [float]; it raises
    [OverflowError] as soon as one quantity is not. *)
Theorem X11_total_of_an_order :
  forall (heap : products) (order : Order.t),
    resolves heap order = true ->
    let in_range :=
      forallb (fun item => convertible (OrderItem.quantity item))
        (Order.items order) in
    (in_range = true ->
     exists total,
       Order.total heap order = Ok total
       /\ (Order.items order = [] -> total = Py.Int 0)
       /\ (Order.items order <> [] -> exists f, total = Py.Float f))
    /\ (in_range = false -> Order.total heap order = Raise OverflowError).
Proof.
  intros heap order Hres in_range. subst in_range.
  pose proof (sum_from_subtotals heap (Order.items order) (Py.Int 0)
                (or_introl eq_refl) Hres) as H.
  unfold Order.total, Py.sum.
  destruct (forallb _ (Order.items order)); split; intros Hb;
    try discriminate; exact H.
Qed.

(** An order of two mice at the seeded prices, and one of 2^1024 mice. *)
Lemma X11_total_of_an_order_witness :
  (exists total,
      Order.total (catalog seeded)
        (Order.mk None "Ana" [OrderItem.mk 2 2] "pending" None) = Ok total)
  /\ Order.total (catalog seeded)
       (Order.mk None "Ana" [OrderItem.mk 2 (2 ^ 1024)] "pending" None)
     = Raise OverflowError.
Proof.
  split.
  - destruct (X11_total_of_an_order (catalog seeded)
                (Order.mk None "Ana" [OrderItem.mk 2 2] "pending" None)
                eq_refl) as [H _].
    destruct (H eq_refl) as [total [Ht _]]. now exists total.
  - apply (X11_total_of_an_order (catalog seeded)
             (Order.mk None "Ana" [OrderItem.mk 2 (2 ^ 1024)] "pending" None)
             eq_refl).
    vm_compute. reflexivity.
Defined.

(** ** The dependency container *)

(** X12. Whatever the notification type, the service that the container
    builds lists no order and finds none under an identifier of at most 4300
    digits, gives the identifier 1 to its first order, lists the four seeded
    products with the stocks 5, 20, 15 and 8, and has sent no confirmation;
    it confirms its orders by SMS when the type is "sms" exactly, and by
    e-mail for any other string. *)
Theorem X12_container_builds_fresh_service :
  forall notification_type : string,
    let s := DependencyContainer.get_order_service notification_type in
    fst (OrderService.list_orders s) = Ok []
    /\ (forall order_id,
          Py.formattable order_id = true ->
          fst (OrderService.get_order order_id s)
          = Raise (ValueError (OrderNotFound order_id)))
    /\ (forall now customer_name,
          exists order,
            fst (OrderService.create_order now customer_name [] s) = Ok order
            /\ Order.id order = Some 1)
    /\ map (fun p => (Product.id p, Product.stock p))
         (fst_ok (fst (OrderService.get_available_products s)))
       = [(1, 5); (2, 20); (3, 15); (4, 8)]
    /\ OrderService.outbox s = []
    /\ (forall now customer_name printed,
          OrderService.outbox
            (snd (OrderService.create_order now customer_name [] s))
          = [printed] ->
          (notification_type = "sms" ->
           printed = SMS customer_name (Some 1) (Py.Int 0))
          /\ (notification_type <> "sms" ->
              printed = Email customer_name (Some 1) (Py.Int 0) "pending")).
Proof.
  intros notification_type s. subst s.
  split; [reflexivity|]. split; [|split; [|split; [reflexivity|split]]].
  - intros order_id Hfmt. rewrite get_order_run. cbn [fst].
    now rewrite Hfmt.
  - intros now customer_name.
    unfold DependencyContainer.get_order_service,
      DependencyContainer.get_notification_service.
    destruct (String.eqb notification_type "sms"); eexists; split; reflexivity.
  - reflexivity.
  - intros now customer_name printed.
    unfold DependencyContainer.get_order_service,
      DependencyContainer.get_notification_service.
    destruct (String.eqb_spec notification_type "sms") as [E|N];
      cbn; intros [= <-]; split; intros H;
      first [reflexivity | contradiction].
Qed.

(** The service built for the type "SMS" holds no order 7. *)
Lemma X12_container_builds_fresh_service_witness :
  fst (OrderService.get_order 7 (DependencyContainer.get_order_service "SMS"))
  = Raise (ValueError (OrderNotFound 7)).
Proof.
  apply (proj1 (proj2 (X12_container_builds_fresh_service "SMS")) 7).
  vm_compute. reflexivity.
Defined.

(** ** What the order store lists *)

Section DictEntries.
Variable V : Type.
Implicit Types (d : Dict.t V) (k : Z) (v : V).

Lemma in_set d k v entry :
  In entry (Dict.set k v d) -> entry = (k, v) \/ In entry d.
Proof.
  induction d as [|[k' v'] d IH]; simpl.
  - intros [H|[]]. now left.
  - destruct (k =? k'); simpl; intros [H|H]; auto.
    destruct (IH H); auto.
Qed.

Lemma get_in d k v : Dict.get k d = Some v -> In (k, v) d.
Proof.
  induction d as [|[k' v'] d IH]; simpl; [discriminate|].
  destruct (Z.eqb_spec k k') as [->|N].
  - intros [= ->]. now left.
  - intros H. right. auto.
Qed.

Lemma nodup_keys_set d k v :
  NoDup (Dict.keys d) -> NoDup (Dict.keys (Dict.set k v d)).
Proof.
  induction d as [|[k' v'] d IH]; simpl.
  - intros _. repeat constructor. intros [].
  - intros Hnd. inversion Hnd as [|? ? Hnot Hnd']; subst.
    destruct (Z.eqb_spec k k') as [->|N]; simpl.
    + now constructor.
    + constructor; [|now apply IH].
      intros Hin. unfold Dict.keys in Hin. apply in_map_iff in Hin.
      destruct Hin as [[k0 v0] [Hk Hin]]. simpl in Hk. subst k0.
      destruct (in_set _ _ _ _ Hin) as [E|Hin'].
      * congruence.
      * apply Hnot. change k' with (fst (k', v0)). now apply in_map.
Qed.

Lemma Forall_set (P : Z * V -> Prop) d k v :
  Forall P d -> P (k, v) -> Forall P (Dict.set k v d).
Proof.
  intros Hd Hv. apply Forall_forall. intros entry Hin.
  destruct (in_set _ _ _ _ Hin) as [->|Hin']; auto.
  rewrite Forall_forall in Hd. auto.
Qed.

End DictEntries.

Lemma well_keyed_save r order :
  well_keyed r -> well_keyed (fst (InMemoryOrderRepository.save r order)).
Proof.
  intros [Hnd Hall]. unfold InMemoryOrderRepository.save.
  destruct (Order.id order) as [i|] eqn:Hid; split; simpl;
    auto using nodup_keys_set; now apply Forall_set.
Qed.

Lemma well_keyed_save_each orders : forall r,
  well_keyed r -> well_keyed (fst (save_each r orders)).
Proof.
  induction orders as [|order orders IH]; intros r Hr; [exact Hr|].
  simpl. pose proof (well_keyed_save r order Hr) as H1.
  destruct (InMemoryOrderRepository.save r order) as [r1 saved].
  specialize (IH r1 H1). destruct (save_each r1 orders). exact IH.
Qed.

Lemma entries_after_save_each orders : forall r entry,
  In entry (InMemoryOrderRepository._orders (fst (save_each r orders))) ->
  In entry (InMemoryOrderRepository._orders r)
  \/ In (snd entry) (snd (save_each r orders)).
Proof.
  induction orders as [|order orders IH]; intros r entry; simpl; auto.
  assert (Hs : forall e,
             In e (InMemoryOrderRepository._orders
                     (fst (InMemoryOrderRepository.save r order))) ->
             In e (InMemoryOrderRepository._orders r)
             \/ snd e = snd (InMemoryOrderRepository.save r order)).
  { intros e. unfold InMemoryOrderRepository.save.
    destruct (Order.id order); simpl; intros He;
      destruct (in_set _ _ _ _ _ He) as [->|]; auto. }
  destruct (InMemoryOrderRepository.save r order) as [r1 saved].
  specialize (IH r1 entry). destruct (save_each r1 orders) as [r2 rest].
  simpl in *. intros H. destruct (IH H) as [H1|H1]; auto.
  destruct (Hs _ H1); auto.
Qed.

(** X13. In an order store that started fresh, after any [save] calls,
    [find_all] lists exactly the orders that [find_by_id] finds under some
    identifier; an order found under an identifier carries that identifier
    and is one of the orders saved, as its [save] call left it. *)
Theorem X13_find_all_lists_what_is_found :
  forall orders : list Order.t,
    let r := fst (save_each InMemoryOrderRepository.__init__ orders) in
    let saved := snd (save_each InMemoryOrderRepository.__init__ orders) in
    (forall order,
        In order (InMemoryOrderRepository.find_all r)
        <-> exists i, InMemoryOrderRepository.find_by_id r i = Some order)
    /\ (forall i order,
          InMemoryOrderRepository.find_by_id r i = Some order ->
          Order.id order = Some i /\ In order saved).
Proof.
  intros orders r saved.
  assert (Hwk : well_keyed r).
  { apply well_keyed_save_each. split; constructor. }
  destruct Hwk as [Hnd Hall].
  unfold InMemoryOrderRepository.find_all, InMemoryOrderRepository.find_by_id.
  split.
  - intros order. split.
    + unfold Dict.values. rewrite in_map_iff.
      intros [[i o] [Ho Hin]]. simpl in Ho. subst o.
      exists i. now apply get_in_nodup.
    + intros [i Hi]. eapply get_in_values; eauto.
  - intros i order Hi. apply get_in in Hi. split.
    + rewrite Forall_forall in Hall. apply (Hall _ Hi).
    + destruct (entries_after_save_each orders _ _ Hi) as [[]|H]. exact H.
Qed.

(** ** Quantities and stock *)

Lemma formattable_bound z :
  Z.abs z < Py.int_str_bound -> Py.formattable z = true.
Proof. intros H. unfold Py.formattable. now apply Z.ltb_lt. Qed.

(** X14. The sign of a quantity is not checked: for a product of the catalog
    with a stock that is not negative, a pair with a zero or negative
    quantity in the range of [float] is accepted, an order is returned, and
    the stock of the product rises by the absolute value of the quantity,
    provided the product identifier and the stock so reached have at most
    4300 decimal digits. *)
Theorem X14_negative_quantity_is_accepted :
  forall (now : datetime) (customer_name : string) (s : OrderService.t)
         (product_id quantity : Z) (p : Product.t),
    Dict.get product_id (catalog s) = Some p ->
    0 <= Product.stock p ->
    quantity <= 0 ->
    convertible quantity = true ->
    Z.abs product_id < Py.int_str_bound ->
    Product.stock p + Z.abs quantity < Py.int_str_bound ->
    let r :=
      OrderService.create_order now customer_name [(product_id, quantity)] s in
    exists order,
      fst r = Ok order
      /\ Dict.get product_id (catalog (snd r))
         = Some (Product.set_stock p (Product.stock p + Z.abs quantity)).
Proof.
  intros now customer_name s product_id quantity p Hp Hstock Hq Hconv Hid
    Hbound r.
  subst r.
  destruct (create_order_in_stock now customer_name [(product_id, quantity)] s)
    as [order [total [s' [Hrun [_ [_ [_ Hdec]]]]]]].
  - simpl. rewrite Hp. rewrite andb_true_r. apply Z.leb_le. lia.
  - simpl. now rewrite Hconv.
  - cbn [all_printable]. unfold printable. cbn [fst snd requested].
    rewrite Hp. rewrite !formattable_bound by lia. reflexivity.
  - exists order. rewrite Hrun. split; [reflexivity|]. simpl.
    rewrite (Hdec product_id), Hp. simpl. rewrite Z.eqb_refl.
    do 2 f_equal. lia.
Qed.

(** Minus three laptops on the seeded service: the stock goes from 5 to 8. *)
Lemma X14_negative_quantity_is_accepted_witness :
  exists order,
    fst (OrderService.create_order 0 "Ana" [(1, -3)] seeded) = Ok order
    /\ option_map Product.stock
         (Dict.get 1
            (catalog (snd (OrderService.create_order 0 "Ana" [(1, -3)]
                             seeded)))) = Some 8.
Proof.
  destruct (X14_negative_quantity_is_accepted 0 "Ana" seeded 1 (-3)
              (Product.mk 1 "Laptop Gaming" (Py.literal 120000 100) 5)
              eq_refl ltac:(simpl; lia) ltac:(lia) eq_refl
              ltac:(vm_compute; reflexivity) ltac:(vm_compute; reflexivity))
    as [order [H1 H2]].
  exists order. split; [exact H1|]. now rewrite H2.
Defined.

Lemma requested_nonneg product_id items :
  Forall (fun request => 0 <= snd request) items ->
  0 <= requested product_id items.
Proof.
  induction 1 as [|[k q] items Hq _ IH]; simpl in *; [lia|].
  destruct (k =? product_id); lia.
Qed.

(** X15. When no quantity of the request is negative, [create_order],
    returning or raising, raises the stock of no product: every product of
    the catalog is still there, with a stock at most the one it had and its
    other fields as they were. *)
Theorem X15_stock_does_not_rise :
  forall (now : datetime) (customer_name : string) (items : list (Z * Z))
         (s : OrderService.t),
    Forall (fun request => 0 <= snd request) items ->
    let r := OrderService.create_order now customer_name items s in
    forall product_id p,
      Dict.get product_id (catalog s) = Some p ->
      exists p',
        Dict.get product_id (catalog (snd r)) = Some p'
        /\ Product.stock p' <= Product.stock p
        /\ identity p' = identity p.
Proof.
  intros now customer_name items s Hpos r product_id p Hp. subst r.
  destruct (create_order_outcome now customer_name items s) as [Hdec _].
  destruct (processed_prefix (catalog s) items []) as [post Hpost].
  rewrite Hpost in Hpos. apply Forall_app in Hpos. destruct Hpos as [Hpre _].
  pose proof (requested_nonneg product_id _ Hpre) as Hreq.
  eexists. split; [rewrite (Hdec product_id), Hp; reflexivity|].
  simpl. split; [lia | reflexivity].
Qed.

(** The demonstration order lowers the stock of the laptop. *)
Lemma X15_stock_does_not_rise_witness :
  exists p',
    Dict.get 1
      (catalog (snd (OrderService.create_order 0 "María González"
                       [(1, 1); (2, 2); (4, 1)] seeded))) = Some p'
    /\ Product.stock p' <= 5.
Proof.
  destruct (X15_stock_does_not_rise 0 "María González"
              [(1, 1); (2, 2); (4, 1)] seeded) with
    (product_id := 1)
    (p := Product.mk 1 "Laptop Gaming" (Py.literal 120000 100) 5)
    as [p' [H1 [H2 _]]].
  - repeat constructor; simpl; lia.
  - reflexivity.
  - exists p'. split; assumption.
Defined.

(** ** Confirmations and stored orders *)

Lemma send_shows_id n heap order printed sent :
  INotificationService.send_order_confirmation n heap order
  = Ok (printed, sent) ->
  snd (fst (shown printed)) = Order.id order.
Proof.
  unfold INotificationService.send_order_confirmation.
  destruct n, (Order.total heap order); simpl; intros [= <- _] ||
    discriminate; reflexivity.
Qed.

Lemma confirmed_perform s c :
  sequential (OrderService.order_repository s) ->
  confirmed_ids s = listed_ids s ->
  confirmed_ids (perform s c) = listed_ids (perform s c).
Proof.
  intros Hseq Hconf.
  destruct c as [now customer_name items|order_id| |]; simpl;
    [|now rewrite get_order_run|assumption|assumption].
  destruct (create_order_outcome now customer_name items s) as [_ H].
  destruct (snd (processed (catalog s) [] items)) as [e|] eqn:He.
  - destruct H as [_ [Hrepo [_ Hout]]].
    unfold confirmed_ids, listed_ids in *. now rewrite Hrepo, Hout.
  - apply processed_none in He. destruct He as [Hin [Hconv Hpr]].
    destruct (create_order_ok_run now customer_name items s Hin Hconv Hpr)
      as [s1 [total [printed [_ [_ [_ [Hsend Hrun]]]]]]].
    rewrite Hrun. unfold confirmed_ids, listed_ids in *. simpl.
    unfold InMemoryOrderRepository.find_all in *. simpl.
    rewrite (set_absent _ _ _ _ (sequential_fresh _ Hseq)).
    unfold Dict.values in *. rewrite !map_app, Hconf. simpl.
    now rewrite (send_shows_id _ _ _ _ _ Hsend).
Qed.

(** X16. In a service whose order store is as the service builds it and
    whose outbox shows the identifiers of the stored orders, in order, a
    freshly built service for instance, this is still so after any sequence
    of calls: every order created has been confirmed once, in creation
    order, and a call that raises sends no confirmation. *)
Theorem X16_one_confirmation_per_order :
  forall (s : OrderService.t) (calls : list call),
    sequential (OrderService.order_repository s) ->
    confirmed_ids s = listed_ids s ->
    confirmed_ids (perform_all s calls) = listed_ids (perform_all s calls).
Proof.
  intros s calls. revert s. unfold perform_all.
  induction calls as [|c calls IH]; intros s Hseq Hconf; [exact Hconf|].
  simpl. apply IH.
  - apply (sequential_perform_all [c] s Hseq).
  - now apply confirmed_perform.
Qed.

(** The calls of the demonstration and one more order, on the seeded
    service. *)
Lemma X16_one_confirmation_per_order_witness :
  let calls :=
    [ CreateOrder 0 "María González" [(1, 1); (2, 2); (4, 1)];
      CreateOrder 1 "Carlos Ruiz" [(1, 10)];
      CreateOrder 2 "Ana" [(3, 1)] ] in
  confirmed_ids (perform_all seeded calls)
  = listed_ids (perform_all seeded calls).
Proof.
  intros calls. apply (X16_one_confirmation_per_order seeded calls).
  - repeat split. constructor.
  - reflexivity.
Defined.
